(** * UDYAM registrations dashboard: loader, filter pipeline and KPIs

    A shallow embedding of [dashboard.py].  Python values are modelled as the
    script handles them:

    - a [str] is a sequence of Unicode code points ([s[:2]] counts code
      points, comparisons are by code point);
    - [json.loads] is modelled by a one-pass lexer and a stack parser that
      accept the language of CPython's decoder (including [NaN],
      [Infinity], [-Infinity]) and report every rejection as
      [JSONDecodeError]; interpreter resource limits (recursion depth, the
      integer digit cap, memory) are outside the model;
    - a raised exception is a value of [exn] carried by [result];
    - a data frame is the list of its rows, a Series the list of its
      values, a boolean mask a list of [bool]. *)

From Stdlib Require Import List NArith ZArith Bool String Ascii Lia.
From Stdlib Require Import Sorting.Sorted DecimalString.
Import ListNotations.

Set Implicit Arguments.
Set Warnings "-register-all".

(** ** Python strings *)

Definition char := N.
Definition str := list char.

(** [lit] reads an ASCII literal; [qlit] is the same with every apostrophe
    standing for a double quote, so that JSON text can be written inline. *)
Definition ch (a : ascii) : char := N_of_ascii a.
Definition dquote : char := 34%N.
Definition lit (s : string) : str := map N_of_ascii (list_ascii_of_string s).
Definition qlit (s : string) : str :=
  map (fun c => if N.eqb c 39 then dquote else c) (lit s).

Fixpoint str_eqb (a b : str) : bool :=
  match a, b with
  | [], [] => true
  | x :: a', y :: b' => N.eqb x y && str_eqb a' b'
  | _, _ => false
  end.

(** [a <= b] on [str]: lexicographic by code point. *)
Fixpoint str_leb (a b : str) : bool :=
  match a, b with
  | [], _ => true
  | _ :: _, [] => false
  | x :: a', y :: b' =>
      if N.ltb x y then true else if N.eqb x y then str_leb a' b' else false
  end.

(** [s.startswith(p)] *)
Fixpoint startswith (s p : str) {struct p} : bool :=
  match p, s with
  | [], _ => true
  | x :: p', y :: s' => N.eqb x y && startswith s' p'
  | _ :: _, [] => false
  end.

(** [s.replace(old, new)] for a non-empty [old]: occurrences are replaced
    left to right without overlap; [skip] counts the characters of a
    matched occurrence still to be dropped. *)
Fixpoint replace_from (skip : nat) (old new s : str) : str :=
  match s with
  | [] => []
  | c :: s' =>
      match skip with
      | S k => replace_from k old new s'
      | O =>
          if startswith s old
          then new ++ replace_from (List.length old - 1) old new s'
          else c :: replace_from 0 old new s'
      end
  end.

Definition replace (s old new : str) : str := replace_from 0 old new s.

(** [s.split(sep)] for a non-empty [sep]; [cur] is the current piece,
    reversed. *)
Fixpoint split_from (skip : nat) (sep cur s : str) : list str :=
  match s with
  | [] => [rev cur]
  | c :: s' =>
      match skip with
      | S k => split_from k sep cur s'
      | O =>
          if startswith s sep
          then rev cur :: split_from (List.length sep - 1) sep [] s'
          else split_from 0 sep (c :: cur) s'
      end
  end.

Definition split (s sep : str) : list str := split_from 0 sep [] s.

(** [str.isspace] on one code point (CPython's [Py_UNICODE_ISSPACE]). *)
Definition isspace (c : char) : bool :=
  ((9 <=? c) && (c <=? 13) || (28 <=? c) && (c <=? 32)
   || (c =? 133) || (c =? 160) || (c =? 5760)
   || (8192 <=? c) && (c <=? 8202)
   || (c =? 8232) || (c =? 8233) || (c =? 8239) || (c =? 8287)
   || (c =? 12288))%N.

Fixpoint lstrip (s : str) : str :=
  match s with
  | c :: s' => if isspace c then lstrip s' else s
  | [] => []
  end.

Definition rstrip (s : str) : str := rev (lstrip (rev s)).
Definition strip (s : str) : str := rstrip (lstrip s).

(** [s[:n]] *)
Definition slice_to (n : nat) (s : str) : str := firstn n s.

(** ** Exceptions *)

Inductive exn :=
| JSONDecodeError | TypeError | IndexError | KeyError | AttributeError
| FileNotFoundError | ValueError | RecursionError.

Inductive result (A : Type) : Type :=
| Ok (a : A)
| Raise (e : exn).
Arguments Ok {A} a.
Arguments Raise {A} e.

Definition bind {A B} (r : result A) (k : A -> result B) : result B :=
  match r with
  | Ok a => k a
  | Raise e => Raise e
  end.

Notation "x <- e ;; k" := (bind e (fun x => k))
  (at level 61, e at next level, right associativity).

(** [try: body except (handled...): fallback] *)
Definition try_except {A} (body : result A) (handled : exn -> bool)
  (fallback : result A) : result A :=
  match body with
  | Ok a => Ok a
  | Raise e => if handled e then fallback else Raise e
  end.

(** ** JSON values and [json.loads] *)

Inductive json :=
| JNull
| JBool (b : bool)
| JInt (z : Z)
| JFloat (lexeme : str)
| JStr (s : str)
| JList (items : list json)
| JDict (members : list (str * json)).

(** A Python [dict] built by successive item assignment: a repeated key
    keeps its position and takes the later value. *)
Fixpoint dict_set (m : list (str * json)) (k : str) (v : json) :
  list (str * json) :=
  match m with
  | [] => [(k, v)]
  | (k', v') :: m' =>
      if str_eqb k' k then (k', v) :: m' else (k', v') :: dict_set m' k v
  end.

Fixpoint dict_lookup (m : list (str * json)) (k : str) : option json :=
  match m with
  | [] => None
  | (k', v) :: m' => if str_eqb k' k then Some v else dict_lookup m' k
  end.

Module Json.

Inductive token :=
| TLBrace | TRBrace | TLBracket | TRBracket | TColon | TComma
| TScalar (v : json).

(** Phases of a number: an optional minus sign, an integer part (a lone
    zero, or digits not starting with zero), an optional fraction (a dot
    and digits), an optional exponent (e or E, an optional sign, digits). *)
Inductive nphase := NSign | NZero | NInt | NDot | NFrac | NE | NESign | NExp.

Inductive lmode :=
| LIdle
| LLit (rest : str) (v : json)
| LNum (ph : nphase) (acc : str)
| LStr (acc : str)
| LEsc (acc : str)
| LHex (pending : option N) (value : N) (todo : nat) (acc : str)
| LHigh (h : N) (acc : str)
| LHighEsc (h : N) (acc : str).

Definition is_ws (c : char) : bool :=
  ((c =? 32) || (c =? 9) || (c =? 10) || (c =? 13))%N.

Definition is_digit (c : char) : bool := ((48 <=? c) && (c <=? 57))%N.

Definition is_e (c : char) : bool := ((c =? ch "e") || (c =? ch "E"))%N.

Definition hex_value (c : char) : option N :=
  if is_digit c then Some (c - 48)%N
  else if ((97 <=? c) && (c <=? 102))%N then Some (c - 87)%N
  else if ((65 <=? c) && (c <=? 70))%N then Some (c - 55)%N
  else None.

Definition is_high (v : N) : bool := ((55296 <=? v) && (v <=? 56319))%N.
Definition is_low (v : N) : bool := ((56320 <=? v) && (v <=? 57343))%N.
Definition join_surrogates (h l : N) : N :=
  (65536 + (h - 55296) * 1024 + (l - 56320))%N.

(** The integer a lexeme of digits denotes, with an optional sign. *)
Definition digits_value (ds : str) : Z :=
  fold_left (fun acc c => (acc * 10 + Z.of_N (c - 48))%Z) ds 0%Z.

Definition int_of_lexeme (lex : str) : Z :=
  match lex with
  | c :: ds => if (c =? ch "-")%N then (- digits_value ds)%Z
               else digits_value lex
  | [] => 0%Z
  end.

Definition num_next (ph : nphase) (c : char) : option nphase :=
  match ph with
  | NSign => if (c =? ch "0")%N then Some NZero
             else if is_digit c then Some NInt else None
  | NZero => if (c =? ch ".")%N then Some NDot
             else if is_e c then Some NE else None
  | NInt => if is_digit c then Some NInt
            else if (c =? ch ".")%N then Some NDot
            else if is_e c then Some NE else None
  | NDot => if is_digit c then Some NFrac else None
  | NFrac => if is_digit c then Some NFrac
             else if is_e c then Some NE else None
  | NE => if ((c =? ch "+") || (c =? ch "-"))%N then Some NESign
          else if is_digit c then Some NExp else None
  | NESign => if is_digit c then Some NExp else None
  | NExp => if is_digit c then Some NExp else None
  end.

(** The value of a number whose lexeme (reversed) is [acc], when the
    pattern may end in phase [ph]. *)
Definition number_value (ph : nphase) (acc : str) : option json :=
  match ph with
  | NZero | NInt => Some (JInt (int_of_lexeme (rev acc)))
  | NFrac | NExp => Some (JFloat (rev acc))
  | _ => None
  end.

Definition idle (c : char) : option (lmode * list token) :=
  if is_ws c then Some (LIdle, [])
  else if (c =? ch "{")%N then Some (LIdle, [TLBrace])
  else if (c =? ch "}")%N then Some (LIdle, [TRBrace])
  else if (c =? ch "[")%N then Some (LIdle, [TLBracket])
  else if (c =? ch "]")%N then Some (LIdle, [TRBracket])
  else if (c =? ch ":")%N then Some (LIdle, [TColon])
  else if (c =? ch ",")%N then Some (LIdle, [TComma])
  else if (c =? dquote)%N then Some (LStr [], [])
  else if (c =? ch "-")%N then Some (LNum NSign [c], [])
  else if (c =? ch "0")%N then Some (LNum NZero [c], [])
  else if is_digit c then Some (LNum NInt [c], [])
  else if (c =? ch "t")%N then Some (LLit (lit "rue") (JBool true), [])
  else if (c =? ch "f")%N then Some (LLit (lit "alse") (JBool false), [])
  else if (c =? ch "n")%N then Some (LLit (lit "ull") JNull, [])
  else if (c =? ch "N")%N then Some (LLit (lit "aN") (JFloat (lit "NaN")), [])
  else if (c =? ch "I")%N
       then Some (LLit (lit "nfinity") (JFloat (lit "Infinity")), [])
  else None.

Definition in_string (acc : str) (c : char) : option (lmode * list token) :=
  if (c =? dquote)%N then Some (LIdle, [TScalar (JStr (rev acc))])
  else if (c =? ch "\")%N then Some (LEsc acc, [])
  else if (c <? 32)%N then None
  else Some (LStr (c :: acc), []).

Definition in_escape (acc : str) (c : char) : option (lmode * list token) :=
  if ((c =? dquote) || (c =? ch "\") || (c =? ch "/"))%N
  then Some (LStr (c :: acc), [])
  else if (c =? ch "b")%N then Some (LStr (8%N :: acc), [])
  else if (c =? ch "f")%N then Some (LStr (12%N :: acc), [])
  else if (c =? ch "n")%N then Some (LStr (10%N :: acc), [])
  else if (c =? ch "r")%N then Some (LStr (13%N :: acc), [])
  else if (c =? ch "t")%N then Some (LStr (9%N :: acc), [])
  else if (c =? ch "u")%N then Some (LHex None 0 4 acc, [])
  else None.

(** A completed [\uXXXX] of value [v]: a high surrogate waits for a low
    one to pair with; anything else is appended as it is. *)
Definition after_hex (pending : option N) (v : N) (acc : str) : lmode :=
  match pending with
  | Some h =>
      if is_low v then LStr (join_surrogates h v :: acc)
      else if is_high v then LHigh v (h :: acc)
      else LStr (v :: h :: acc)
  | None => if is_high v then LHigh v acc else LStr (v :: acc)
  end.

Definition lex_step (m : lmode) (c : char) : option (lmode * list token) :=
  match m with
  | LIdle => idle c
  | LLit rest v =>
      match rest with
      | x :: [] => if (c =? x)%N then Some (LIdle, [TScalar v]) else None
      | x :: rest' => if (c =? x)%N then Some (LLit rest' v, []) else None
      | [] => None
      end
  | LNum ph acc =>
      match num_next ph c with
      | Some ph' => Some (LNum ph' (c :: acc), [])
      | None =>
          match ph with
          | NSign =>
              if (c =? ch "I")%N
              then Some (LLit (lit "nfinity") (JFloat (lit "-Infinity")), [])
              else None
          | _ =>
              match number_value ph acc, idle c with
              | Some v, Some (m', ts) => Some (m', TScalar v :: ts)
              | _, _ => None
              end
          end
      end
  | LStr acc => in_string acc c
  | LEsc acc => in_escape acc c
  | LHex pending value todo acc =>
      match hex_value c with
      | None => None
      | Some d =>
          let v := (value * 16 + d)%N in
          match todo with
          | S (S k) => Some (LHex pending v (S k) acc, [])
          | _ => Some (after_hex pending v acc, [])
          end
      end
  | LHigh h acc =>
      if (c =? ch "\")%N then Some (LHighEsc h acc, [])
      else in_string (h :: acc) c
  | LHighEsc h acc =>
      if (c =? ch "u")%N then Some (LHex (Some h) 0 4 acc, [])
      else in_escape (h :: acc) c
  end.

Definition lex_end (m : lmode) : option (list token) :=
  match m with
  | LIdle => Some []
  | LNum ph acc => option_map (fun v => [TScalar v]) (number_value ph acc)
  | _ => None
  end.

Fixpoint lex_from (m : lmode) (s : str) : option (list token) :=
  match s with
  | [] => lex_end m
  | c :: s' =>
      match lex_step m c with
      | None => None
      | Some (m', ts) => option_map (app ts) (lex_from m' s')
      end
  end.

(** The parser keeps the containers still open on a stack. *)
Inductive frame :=
| FList (rev_items : list json)
| FDict (members : list (str * json)) (key : str).

Inductive pmode :=
| PValue
| PListFirst
| PListAfter
| PDictFirst
| PDictKey (members : list (str * json))
| PDictColon (members : list (str * json)) (key : str)
| PDictAfter (members : list (str * json))
| PDone (v : json).

Definition deliver (v : json) (stack : list frame) : list frame * pmode :=
  match stack with
  | [] => ([], PDone v)
  | FList items :: st => (FList (v :: items) :: st, PListAfter)
  | FDict ms k :: st => (st, PDictAfter (dict_set ms k v))
  end.

Definition value_start (stack : list frame) (t : token) :
  option (list frame * pmode) :=
  match t with
  | TScalar v => Some (deliver v stack)
  | TLBracket => Some (FList [] :: stack, PListFirst)
  | TLBrace => Some (stack, PDictFirst)
  | _ => None
  end.

Definition close_list (stack : list frame) : option (list frame * pmode) :=
  match stack with
  | FList items :: st => Some (deliver (JList (rev items)) st)
  | _ => None
  end.

Definition parse_step (stack : list frame) (m : pmode) (t : token) :
  option (list frame * pmode) :=
  match m, t with
  | PValue, _ => value_start stack t
  | PListFirst, TRBracket => close_list stack
  | PListFirst, _ => value_start stack t
  | PListAfter, TComma => Some (stack, PValue)
  | PListAfter, TRBracket => close_list stack
  | PDictFirst, TRBrace => Some (deliver (JDict []) stack)
  | PDictFirst, TScalar (JStr k) => Some (stack, PDictColon [] k)
  | PDictKey ms, TScalar (JStr k) => Some (stack, PDictColon ms k)
  | PDictColon ms k, TColon => Some (FDict ms k :: stack, PValue)
  | PDictAfter ms, TComma => Some (stack, PDictKey ms)
  | PDictAfter ms, TRBrace => Some (deliver (JDict ms) stack)
  | _, _ => None
  end.

Fixpoint parse_from (stack : list frame) (m : pmode) (ts : list token) :
  option json :=
  match ts with
  | [] => match m with PDone v => Some v | _ => None end
  | t :: ts' =>
      match parse_step stack m t with
      | None => None
      | Some (stack', m') => parse_from stack' m' ts'
      end
  end.

(** [json.loads(s)] *)
Definition loads (s : str) : result json :=
  match lex_from LIdle s with
  | None => Raise JSONDecodeError
  | Some ts =>
      match parse_from [] PValue ts with
      | None => Raise JSONDecodeError
      | Some v => Ok v
      end
  end.

End Json.

Import Json.

(** ** Python operations the script applies to decoded values *)

(** [obj[i]] for a non-negative literal [i].  A [dict] decoded from JSON
    has only [str] keys, so an integer subscript always misses. *)
Definition getitem (obj : json) (i : nat) : result json :=
  match obj with
  | JList items =>
      match nth_error items i with
      | Some v => Ok v
      | None => Raise IndexError
      end
  | JStr s =>
      match nth_error s i with
      | Some c => Ok (JStr [c])
      | None => Raise IndexError
      end
  | JDict _ => Raise KeyError
  | JNull | JBool _ | JInt _ | JFloat _ => Raise TypeError
  end.

(** [obj.get(key, default)]: only a [dict] has the method. *)
Definition get (obj : json) (key : str) (default : json) : result json :=
  match obj with
  | JDict m =>
      Ok (match dict_lookup m key with Some v => v | None => default end)
  | _ => Raise AttributeError
  end.

Definition str_of_int (z : Z) : str :=
  lit (DecimalString.NilZero.string_of_int (Z.to_int z)).

(** ** Cells of the CSV frame *)

Inductive cell :=
| CStr (s : str)
| CNaN
| CNone.

(** [str(x)] on a cell. *)
Definition cell_str (x : cell) : str :=
  match x with
  | CStr s => s
  | CNaN => lit "nan"
  | CNone => lit "None"
  end.

(** [.fillna(v).astype(str)] on a cell. *)
Definition fillna (v : str) (x : cell) : str :=
  match x with
  | CStr s => s
  | CNaN | CNone => v
  end.


(** ** Dates *)

Record date := mkdate { year : Z; month : Z; day : Z }.

Definition date_compare (a b : date) : comparison :=
  match (year a ?= year b)%Z with
  | Eq =>
      match (month a ?= month b)%Z with
      | Eq => (day a ?= day b)%Z
      | c => c
      end
  | c => c
  end.

(** [a <= b] *)
Definition date_leb (a b : date) : bool :=
  match date_compare a b with
  | Gt => false
  | _ => true
  end.

Definition date_min (a b : date) : date := if date_leb a b then a else b.
Definition date_max (a b : date) : date := if date_leb a b then b else a.

(** ** Frames *)

(** A row of the frame [pd.read_csv] returns, with the two cell-wise
    library conversions of lines 47 and 50 already applied:
    [csv_RegistrationDate] is the outcome of [pd.to_datetime] with
    [errors='coerce'] ([None] for [NaT]) and [csv_Pincode] the digit string
    left by the numeric clean-up.  State and District cells are taken to
    be present: a missing one, which [sorted] would refuse among the
    options of its selectbox, is not modelled. *)
Record CsvRow := {
  csv_RegistrationDate : option date;
  csv_Pincode : str;
  csv_Activities : cell;
  csv_State : str;
  csv_District : str;
  csv_EnterpriseName : cell;
  csv_CommunicationAddress : cell
}.

(** A row of the normalized table. *)
Record Row := {
  RegistrationDate : date;
  State : str;
  District : str;
  Pincode : str;
  EnterpriseName : str;
  CommunicationAddress : str;
  ActivityDescription : str;
  NIC5DigitId : str;
  NIC_Section : str;
  NIC_Section_Desc : str;
  NIC_Section_Code_Desc : str;
  NIC3DigitId : str;
  Industry_Suggestion : str
}.

(** [df[mask]] *)
Fixpoint select {A} (df : list A) (mask : list bool) : list A :=
  match df, mask with
  | r :: df', b :: mask' => if b then r :: select df' mask' else select df' mask'
  | _, _ => []
  end.

(** [m1 & m2] *)
Fixpoint mask_and (m1 m2 : list bool) : list bool :=
  match m1, m2 with
  | a :: m1', b :: m2' => (a && b) :: mask_and m1' m2'
  | _, _ => []
  end.

(** [series == x] *)
Definition eq_mask (series : list str) (x : str) : list bool :=
  map (fun v => str_eqb v x) series.

(** [series.isin(values)] *)
Definition isin (series : list str) (values : list str) : list bool :=
  map (fun v => existsb (str_eqb v) values) series.

(** [series.unique()]: distinct values in order of first appearance. *)
Fixpoint unique (l : list str) : list str :=
  match l with
  | [] => []
  | x :: l' => x :: filter (fun y => negb (str_eqb x y)) (unique l')
  end.

(** [sorted(l)] on strings. *)
Fixpoint insert_sorted (x : str) (l : list str) : list str :=
  match l with
  | [] => [x]
  | y :: l' => if str_leb x y then x :: l else y :: insert_sorted x l'
  end.

Fixpoint sorted (l : list str) : list str :=
  match l with
  | [] => []
  | x :: l' => insert_sorted x (sorted l')
  end.

(** [series.replace(a, b)]: a value equal to [a] becomes [b]. *)
Definition replace_value (a b : str) (v : str) : str :=
  if str_eqb v a then b else v.

(** ** Static configuration *)

Definition file_name : str :=
  lit "/Users/thesanthoshsankaran/APU MAD/D3 Storytelling Initiative/UDYAM Dashboard/udyam statewise data/udyam_maharashtra_data_20251024-182305.csv".

Definition NIC_SECTION_MAPPING : list (str * str) :=
  [ (lit "01", lit "Crop & Animal Production");
    (lit "02", lit "Forestry and Logging");
    (lit "10", lit "Manufacture of Food Products");
    (lit "13", lit "Manufacture of Textiles");
    (lit "14", lit "Manufacture of Wearing Apparel");
    (lit "16", lit "Manufacture of Wood & Cork");
    (lit "25", lit "Manufacture of Metal Products");
    (lit "41", lit "Construction of Buildings");
    (lit "43", lit "Specialised Construction");
    (lit "45", lit "Motor Vehicle Trade/Repair");
    (lit "46", lit "Wholesale Trade");
    (lit "47", lit "Retail Trade");
    (lit "49", lit "Land Transport");
    (lit "55", lit "Accommodation");
    (lit "56", lit "Food & Beverage Services");
    (lit "62", lit "IT & Computer Programming");
    (lit "68", lit "Real Estate Activities");
    (lit "73", lit "Advertising & Market Research");
    (lit "85", lit "Education");
    (lit "86", lit "Human Health Activities");
    (lit "96", lit "Other Personal Service Activities");
    (lit "00", lit "Unspecified Section") ].

Fixpoint mapping_get (m : list (str * str)) (k : str) : option str :=
  match m with
  | [] => None
  | (k', v) :: m' => if str_eqb k' k then Some v else mapping_get m' k
  end.

(** [series.map(mapping).fillna(default)] on one value. *)
Definition map_fillna (m : list (str * str)) (default : str) (k : str) : str :=
  match mapping_get m k with
  | Some v => v
  | None => default
  end.

(** ** The rendered page *)

Inductive metric_value :=
| MCount (n : nat)
| MText (s : str)
| MFloat.

(** What the script asks Streamlit to draw, in order.  Layout containers
    (columns, the expander) are not elements; a chart is identified by its
    title and a float metric by its label, their contents are not
    modelled. *)
Inductive element :=
| st_set_page_config
| st_error (msg : str)
| st_title (s : str)
| st_markdown_total (records : nat)
| st_markdown_rule
| st_header (s : str)
| st_subheader (s : str)
| st_slider (label : str) (min_value max_value : date) (value : date * date)
| st_selectbox (label : str) (options : list str)
| st_multiselect (label : str) (options : list str)
| st_warning (msg : str)
| st_metric (label : str) (value : metric_value)
| st_plotly_chart (title : str)
| st_dataframe (columns : list str) (rows : list Row).

(** How a run of the script ends. *)
Inductive outcome (A : Type) : Type :=
| Done (a : A)
| Stop
| Crash (e : exn).
Arguments Done {A} a.
Arguments Stop {A}.
Arguments Crash {A} e.

(** A script fragment: the elements it renders and how it ends. *)
Definition ui (A : Type) : Type := (list element * outcome A)%type.

Definition ui_ret {A} (a : A) : ui A := ([], Done a).

Definition ui_bind {A B} (m : ui A) (k : A -> ui B) : ui B :=
  match m with
  | (out, Done a) => let (out', r) := k a in (out ++ out', r)
  | (out, Stop) => (out, Stop)
  | (out, Crash e) => (out, Crash e)
  end.

Notation "x <~ e ;; k" := (ui_bind e (fun x => k))
  (at level 61, e at next level, right associativity).
Notation "e ;;; k" := (ui_bind e (fun _ => k))
  (at level 61, right associativity).

Definition render (e : element) : ui unit := ([e], Done tt).
Definition st_stop {A} : ui A := ([], Stop).

(** The value a widget returns: what the user has set, or the declared
    default while the widget is untouched. *)
Definition widget {A} (default : A) (user : option A) : A :=
  match user with
  | Some v => v
  | None => default
  end.

Record Selections := {
  user_date_range : option (date * date);
  user_state : option str;
  user_district : option str;
  user_industry : option (list str);
  user_enterprise_name : option (list str);
  user_pincode : option (list str)
}.

Definition untouched : Selections :=
  {| user_date_range := None; user_state := None; user_district := None;
     user_industry := None; user_enterprise_name := None;
     user_pincode := None |}.

(** ** Filter stages (section 2 and 3 of the script) *)

Definition series_min (l : list date) (d : date) : date := fold_left date_min l d.
Definition series_max (l : list date) (d : date) : date := fold_left date_max l d.

Definition date_filtered_df (df : list Row) (start_date end_date : date) :
  list Row :=
  select df
    (mask_and (map (fun d => date_leb start_date d) (map RegistrationDate df))
              (map (fun d => date_leb d end_date) (map RegistrationDate df))).

Definition state_options (date_filtered : list Row) : list str :=
  lit "All States" :: sorted (unique (map State date_filtered)).

Definition state_filtered_df (date_filtered : list Row) (selected_state : str) :
  list Row :=
  if str_eqb selected_state (lit "All States") then date_filtered
  else select date_filtered (eq_mask (map State date_filtered) selected_state).

Definition district_options (state_filtered : list Row) : list str :=
  lit "All Districts" :: sorted (unique (map District state_filtered)).

(** The district stage also sets [district_filter_applied]. *)
Definition district_filtered_df (state_filtered : list Row)
  (selected_district : str) : list Row * bool :=
  if str_eqb selected_district (lit "All Districts") then (state_filtered, false)
  else (select state_filtered
          (eq_mask (map District state_filtered) selected_district), true).

Definition name_options (district_filtered : list Row) : list str :=
  sorted (unique (map EnterpriseName district_filtered)).

Definition pincode_stage (filtered_df : list Row) (selected_pincode : list str) :
  list Row :=
  match selected_pincode with
  | [] => filtered_df
  | _ :: _ => select filtered_df (isin (map Pincode filtered_df) selected_pincode)
  end.

Definition selected_nic3_codes (selected_industry : list str) : list str :=
  map (fun item => strip (hd [] (split item (lit " - ")))) selected_industry.

Definition industry_stage (filtered_df : list Row) (selected_industry : list str) :
  list Row :=
  match selected_industry with
  | [] => filtered_df
  | _ :: _ =>
      select filtered_df
        (isin (map NIC3DigitId filtered_df) (selected_nic3_codes selected_industry))
  end.

Definition name_stage (filtered_df : list Row)
  (selected_enterprise_name : list str) : list Row :=
  match selected_enterprise_name with
  | [] => filtered_df
  | _ :: _ =>
      select filtered_df
        (isin (map EnterpriseName filtered_df) selected_enterprise_name)
  end.

(** Section 3: the three multi-choice stages on the geography result. *)
Definition final_filter (district_filtered : list Row)
  (selected_pincode selected_industry selected_enterprise_name : list str) :
  list Row :=
  name_stage
    (industry_stage (pincode_stage district_filtered selected_pincode)
       selected_industry)
    selected_enterprise_name.

(** ** KPIs *)

Definition count_of (x : str) (l : list str) : nat :=
  List.length (filter (str_eqb x) l).

Definition max_count (l : list str) : nat :=
  fold_right (fun x m => Nat.max (count_of x l) m) 0 l.

(** [series.mode()]: the most frequent values, in ascending order. *)
Definition mode (l : list str) : list str :=
  sorted (filter (fun x => Nat.eqb (count_of x l) (max_count l)) (unique l)).

(** [series.iloc[0]] *)
Definition iloc0 (l : list str) : result str :=
  match l with
  | x :: _ => Ok x
  | [] => Raise IndexError
  end.

Definition top_activity_desc (filtered_df : list Row) : result str :=
  match map ActivityDescription filtered_df with
  | [] => Ok (lit "No Activity")
  | _ :: _ => iloc0 (mode (map ActivityDescription filtered_df))
  end.

(** The expression of line 259 on the column as pandas holds it, where a
    description may be null ([None]: the payload said
    ["Description": null]).  [.empty] looks at the number of entries,
    nulls included; [mode()] leaves the nulls out before it counts. *)
Definition dropna_values (col : list (option str)) : list str :=
  flat_map (fun d => match d with Some s => [s] | None => [] end) col.

Definition top_activity_desc_of (col : list (option str)) : result str :=
  match col with
  | [] => Ok (lit "No Activity")
  | _ :: _ => iloc0 (mode (dropna_values col))
  end.

Definition display_cols : list str :=
  [ lit "RegistrationDate"; lit "EnterpriseName"; lit "State"; lit "District";
    lit "Pincode"; lit "NIC_Section"; lit "ActivityDescription";
    lit "CommunicationAddress" ].

Definition of_result {A} (r : result A) : ui A :=
  match r with
  | Ok a => ui_ret a
  | Raise e => ([], Crash e)
  end.

(** Section 4 of the script.  The aggregations behind the third metric and
    the charts are not modelled: each is the element it renders. *)
Definition presentation (filtered_df : list Row) (district_filter_applied : bool) :
  ui unit :=
  render st_markdown_rule ;;;
  match filtered_df with
  | [] =>
      render (st_warning (lit "No data matches your current filter selections. Please adjust the filters above."))
  | _ :: _ =>
      render (st_header (lit "Key Performance Indicators (KPIs) - Filtered Results")) ;;;
      render (st_metric (lit "Total Registrations") (MCount (List.length filtered_df))) ;;;
      top <~ of_result (top_activity_desc filtered_df) ;;
      render (st_metric (lit "Top Industry Description") (MText top)) ;;;
      render (st_metric (lit "Average Daily Registrations") MFloat) ;;;
      render st_markdown_rule ;;;
      render (st_header (lit "Trend and Geographic Distribution")) ;;;
      render (st_subheader (lit "Monthly Registration Trend")) ;;;
      render (st_plotly_chart (lit "Monthly Enterprise Registrations")) ;;;
      render (st_header (lit "Industry Categorization")) ;;;
      render (st_subheader (lit "Top 10 NIC Sections (2-Digit Description)")) ;;;
      render (st_plotly_chart (lit "Top 10 Distribution by NIC Section")) ;;;
      render (st_subheader (lit "Top Specific Business Activities (Top 15)")) ;;;
      render (st_plotly_chart (lit "Ranking of Top 15 Enterprise Activities")) ;;;
      (if district_filter_applied then ui_ret tt
       else
         render (st_subheader (lit "Registrations by District")) ;;;
         render (st_plotly_chart (lit "Total Registrations per District"))) ;;;
      render st_markdown_rule ;;;
      render (st_subheader (lit "Filtered Enterprise Data Preview")) ;;;
      render (st_dataframe display_cols filtered_df)
  end.

Section Dashboard.

(** Python's rendering [str(v)] of a float, a list or a dict is left
    abstract: everything below holds whatever it is. *)
Variable py_repr : json -> str.

(** [str(v)] *)
Definition py_str (v : json) : str :=
  match v with
  | JStr s => s
  | JInt z => str_of_int z
  | JBool true => lit "True"
  | JBool false => lit "False"
  | JNull => lit "None"
  | JFloat _ | JList _ | JDict _ => py_repr v
  end.

(** ** The loader (section 1 of the script) *)

(** The [except] clause of [parse_activities]. *)
Definition handled (e : exn) : bool :=
  match e with
  | JSONDecodeError | TypeError | IndexError => true
  | _ => false
  end.

(** The quote repair of line 56. *)
Definition clean_quotes (activities_str : str) : str :=
  replace
    (replace (replace activities_str (qlit "''") (qlit "'"))
       (qlit "'[") (lit "["))
    (qlit "]'") (lit "]").

Definition sentinel : json * str :=
  (JStr (lit "Unspecified Activity"), lit "00000").

(** The [try] block of [parse_activities]. *)
Definition parse_body (activities_str : str) : result (json * str) :=
  let cleaned_str := clean_quotes activities_str in
  data <- loads cleaned_str ;;
  first <- getitem data 0 ;;
  description <- get first (lit "Description")
                   (JStr (lit "Unspecified Activity")) ;;
  first' <- getitem data 0 ;;
  nic <- get first' (lit "NIC5DigitId") (JStr (lit "00000")) ;;
  Ok (description, py_str nic).

Definition parse_activities (activities_str : str) : result (json * str) :=
  try_except (parse_body activities_str) handled (Ok sentinel).

(** [parse_activities] with the decoder called at line 57 as a parameter:
    what the function does with whatever [json.loads] returns or raises,
    the exceptions of the interpreter's own limits included (ValueError
    for an integer of too many digits, RecursionError for too deep a
    nesting), which [loads] above never raises. *)
Definition parse_body_with (decode : str -> result json)
  (activities_str : str) : result (json * str) :=
  let cleaned_str := clean_quotes activities_str in
  data <- decode cleaned_str ;;
  first <- getitem data 0 ;;
  description <- get first (lit "Description")
                   (JStr (lit "Unspecified Activity")) ;;
  first' <- getitem data 0 ;;
  nic <- get first' (lit "NIC5DigitId") (JStr (lit "00000")) ;;
  Ok (description, py_str nic).

Definition parse_activities_with (decode : str -> result json)
  (activities_str : str) : result (json * str) :=
  try_except (parse_body_with decode activities_str) handled (Ok sentinel).

(** [series.apply(f)]: rows in order; the first exception ends the call. *)
Fixpoint apply {A B} (f : A -> result B) (l : list A) : result (list B) :=
  match l with
  | [] => Ok []
  | x :: l' =>
      y <- f x ;;
      ys <- apply f l' ;;
      Ok (y :: ys)
  end.

Definition NIC_Section_of (nic5 : str) : str :=
  replace_value [] (lit "00") (slice_to 2 nic5).

Definition NIC3DigitId_of (nic5 : str) : str :=
  replace_value [] (lit "000") (slice_to 3 nic5).

Definition NIC_Section_Desc_of (section : str) : str :=
  map_fillna NIC_SECTION_MAPPING (lit "Other/Unmapped Section") section.

(** [df.dropna(subset=['RegistrationDate'])] on the parsed frame. *)
Fixpoint dropna (l : list (CsvRow * (json * str))) :
  list (date * CsvRow * (json * str)) :=
  match l with
  | [] => []
  | (r, p) :: l' =>
      match csv_RegistrationDate r with
      | Some d => (d, r, p) :: dropna l'
      | None => dropna l'
      end
  end.

(** One row of the normalized table (lines 71 to 91).  [Row] holds the
    description as a [str], which is what line 91 needs to concatenate the
    label.  A description of another type ends the load in [TypeError] at
    line 91; a null one gives a missing label, which [sorted] (line 92)
    refuses with [TypeError] as soon as the labels hold a second value.
    The model gives [TypeError] in both cases.  The table the loader
    hands back when every dated row has a null description is therefore
    not a value of [list Row]; what line 259 does on such a column is
    [top_activity_desc_of]. *)
Definition build_row (x : date * CsvRow * (json * str)) : result Row :=
  let '(d, r, (description, nic5)) := x in
  match description with
  | JStr desc =>
      let section := NIC_Section_of nic5 in
      let section_desc := NIC_Section_Desc_of section in
      let nic3 := NIC3DigitId_of nic5 in
      Ok {| RegistrationDate := d;
            State := csv_State r;
            District := csv_District r;
            Pincode := csv_Pincode r;
            EnterpriseName := fillna [] (csv_EnterpriseName r);
            CommunicationAddress := fillna [] (csv_CommunicationAddress r);
            ActivityDescription := desc;
            NIC5DigitId := nic5;
            NIC_Section := section;
            NIC_Section_Desc := section_desc;
            NIC_Section_Code_Desc := section ++ lit " - " ++ section_desc;
            NIC3DigitId := nic3;
            Industry_Suggestion := nic3 ++ lit " - " ++ desc |}
  | _ => Raise TypeError
  end.

(** Lines 52 to 91 on the frame read: every payload is parsed (rows whose
    date is missing included), the derived columns are added, the rows
    without a date are dropped, and the labels are built.  The column
    assignment of line 66 on a frame without any row is not modelled: the
    model returns the empty table there. *)
Definition normalize (rows : list CsvRow) : result (list Row) :=
  parsed <- apply (fun r =>
                     p <- parse_activities (cell_str (csv_Activities r)) ;;
                     Ok (r, p)) rows ;;
  apply build_row (dropna parsed).

Record Loaded := {
  df : list Row;
  industry_suggestions : list str;
  name_suggestions : list str;
  pincode_options : list str;
  address_options : list str
}.

(** The file system: the frame [pd.read_csv] returns for a path, [None]
    when the path does not resolve. *)
Definition filesystem := str -> option (list CsvRow).

Definition read_csv (fs : filesystem) (file_path : str) : result (list CsvRow) :=
  match fs file_path with
  | Some rows => Ok rows
  | None => Raise FileNotFoundError
  end.

Definition not_found_message (file_path : str) : str :=
  lit "Error: The file '" ++ file_path
  ++ lit "' was not found. Please ensure the file is present in the same directory.".

Definition load_and_process_data (fs : filesystem) (file_path : str) : ui Loaded :=
  match (rows <- read_csv fs file_path ;; normalize rows) with
  | Ok table =>
      ui_ret {| df := table;
                industry_suggestions :=
                  sorted (unique (map Industry_Suggestion table));
                name_suggestions := sorted (unique (map EnterpriseName table));
                pincode_options := sorted (unique (map Pincode table));
                address_options :=
                  sorted (unique (map CommunicationAddress table)) |}
  | Raise FileNotFoundError =>
      render (st_error (not_found_message file_path)) ;;;
      ui_ret {| df := []; industry_suggestions := []; name_suggestions := [];
                pincode_options := []; address_options := [] |}
  | Raise e => ([], Crash e)
  end.

(** Section 2: the filter controls, and the geography result they give.
    Every widget is taken to render: that [st.slider] refuses equal bounds
    (a table whose rows share one date) is not modelled. *)
Definition filter_controls (loaded : Loaded) (first : Row) (rest : list Row)
  (user : Selections) : ui (list Row * bool * list str * list str * list str) :=
  let dates := map RegistrationDate rest in
  let min_date := series_min dates (RegistrationDate first) in
  let max_date := series_max dates (RegistrationDate first) in
  render (st_title (128202%N :: lit " UDYAM Registrations Dashboard")) ;;;
  render (st_markdown_total (List.length (df loaded))) ;;;
  render (st_subheader (lit "Time")) ;;;
  render (st_slider (lit "1. Registration Date Range") min_date max_date
            (min_date, max_date)) ;;;
  let date_range := widget (min_date, max_date) (user_date_range user) in
  let date_filtered := date_filtered_df (df loaded) (fst date_range) (snd date_range) in
  render (st_subheader (lit "Geography")) ;;;
  render (st_selectbox (lit "2. Select State") (state_options date_filtered)) ;;;
  let selected_state := widget (lit "All States") (user_state user) in
  let state_filtered := state_filtered_df date_filtered selected_state in
  render (st_selectbox (lit "3. Select District") (district_options state_filtered)) ;;;
  let selected_district := widget (lit "All Districts") (user_district user) in
  let '(district_filtered, district_filter_applied) :=
    district_filtered_df state_filtered selected_district in
  render (st_subheader (lit "Search Parameters")) ;;;
  render (st_multiselect (lit "5. Filter by Industry (NIC 3-Digit / Activity)")
            (industry_suggestions loaded)) ;;;
  let selected_industry := widget [] (user_industry user) in
  render (st_multiselect (lit "6. Filter by Enterprise Name")
            (name_options district_filtered)) ;;;
  let selected_enterprise_name := widget [] (user_enterprise_name user) in
  render (st_multiselect (lit "4. Filter by Pincode") (pincode_options loaded)) ;;;
  let selected_pincode := widget [] (user_pincode user) in
  ui_ret (district_filtered, district_filter_applied,
          selected_pincode, selected_industry, selected_enterprise_name).

(** The whole script. *)
Definition dashboard (fs : filesystem) (user : Selections) : ui unit :=
  render st_set_page_config ;;;
  loaded <~ load_and_process_data fs file_name ;;
  match df loaded with
  | [] => st_stop
  | first :: rest =>
      c <~ filter_controls loaded first rest user ;;
      let '(district_filtered, district_filter_applied,
            selected_pincode, selected_industry, selected_enterprise_name) := c in
      let filtered_df :=
        final_filter district_filtered selected_pincode selected_industry
          selected_enterprise_name in
      presentation filtered_df district_filter_applied
  end.

End Dashboard.

(** ** Notions the properties are stated with *)

(** [a <= b] on strings, as a proposition. *)
Definition str_le (a b : str) : Prop := str_leb a b = true.

(** The text of [s] before the first occurrence of [sep] (all of [s] when
    there is none), stated directly. *)
Fixpoint before_first (sep s : str) : str :=
  match s with
  | [] => []
  | c :: s' => if startswith s sep then [] else c :: before_first sep s'
  end.

(** [is_digits n s]: [s] is a string of exactly [n] decimal digits. *)
Definition is_digits (n : nat) (s : str) : bool :=
  Nat.eqb (List.length s) n && forallb is_digit s.

(** The filtered table as the script composes it from the widget values. *)
Definition pipeline (df : list Row) (date_range : date * date)
  (selected_state selected_district : str)
  (selected_pincode selected_industry selected_enterprise_name : list str) :
  list Row :=
  final_filter
    (fst (district_filtered_df
            (state_filtered_df
               (date_filtered_df df (fst date_range) (snd date_range))
               selected_state)
            selected_district))
    selected_pincode selected_industry selected_enterprise_name.

(** What the six stages ask of a row, as one test. *)
Definition row_passes (date_range : date * date)
  (selected_state selected_district : str)
  (selected_pincode selected_industry selected_enterprise_name : list str)
  (r : Row) : bool :=
  date_leb (fst date_range) (RegistrationDate r)
  && date_leb (RegistrationDate r) (snd date_range)
  && (str_eqb selected_state (lit "All States")
      || str_eqb (State r) selected_state)
  && (str_eqb selected_district (lit "All Districts")
      || str_eqb (District r) selected_district)
  && match selected_pincode with
     | [] => true
     | _ :: _ => existsb (str_eqb (Pincode r)) selected_pincode
     end
  && match selected_industry with
     | [] => true
     | _ :: _ =>
         existsb (str_eqb (NIC3DigitId r)) (selected_nic3_codes selected_industry)
     end
  && match selected_enterprise_name with
     | [] => true
     | _ :: _ => existsb (str_eqb (EnterpriseName r)) selected_enterprise_name
     end.

(** How often a value, null or not, occurs in a column: the standard
    library's count, which is not the one [mode] is written with. *)
Definition description_eq_dec (x y : option str) : {x = y} + {x <> y}.
Proof. decide equality. apply (list_eq_dec N.eq_dec). Defined.

Definition occurrences (d : option str) (col : list (option str)) : nat :=
  count_occ description_eq_dec col d.

(** A CSV row whose registration date was parsed. *)
Definition has_date (x : CsvRow) : bool :=
  match csv_RegistrationDate x with
  | Some _ => true
  | None => false
  end.

(** What a row of the normalized table takes over from its CSV row. *)
Definition carries (x : CsvRow) (r : Row) : Prop :=
  csv_RegistrationDate x = Some (RegistrationDate r)
  /\ State r = csv_State x
  /\ District r = csv_District x
  /\ Pincode r = csv_Pincode x
  /\ EnterpriseName r = fillna [] (csv_EnterpriseName x)
  /\ CommunicationAddress r = fillna [] (csv_CommunicationAddress x).

(** ** Sample data

    The closed examples further down use the inputs below.  These carry no
    float, list or dict where the script calls [str], so what they show
    holds for every rendering of those; they are stated with [any_repr]. *)

Definition any_repr : json -> str := fun _ => lit "?".

Definition csv_row (d : option date) (activities : cell)
  (state district pincode name : string) : CsvRow :=
  {| csv_RegistrationDate := d;
     csv_Pincode := lit pincode;
     csv_Activities := activities;
     csv_State := lit state;
     csv_District := lit district;
     csv_EnterpriseName := CStr (lit name);
     csv_CommunicationAddress := CNaN |}.

Definition file_with (rows : list CsvRow) : filesystem :=
  fun path => if str_eqb path file_name then Some rows else None.

Definition sample_rows : list CsvRow :=
  [ csv_row (Some (mkdate 2023 1 15))
      (CStr (qlit "'[{''Description'':''Bakery'',''NIC5DigitId'':''10710''}]'"))
      "Maharashtra" "Pune" "411001" "Asha Bakers";
    csv_row (Some (mkdate 2023 2 1)) CNaN
      "Karnataka" "Mysuru" "570001" "Kaveri Traders" ].

Definition bakery_row : Row :=
  {| RegistrationDate := mkdate 2023 1 15;
     State := lit "Maharashtra";
     District := lit "Pune";
     Pincode := lit "411001";
     EnterpriseName := lit "Asha Bakers";
     CommunicationAddress := [];
     ActivityDescription := lit "Bakery";
     NIC5DigitId := lit "10710";
     NIC_Section := lit "10";
     NIC_Section_Desc := lit "Manufacture of Food Products";
     NIC_Section_Code_Desc := lit "10 - Manufacture of Food Products";
     NIC3DigitId := lit "107";
     Industry_Suggestion := lit "107 - Bakery" |}.

Definition unspecified_row : Row :=
  {| RegistrationDate := mkdate 2023 2 1;
     State := lit "Karnataka";
     District := lit "Mysuru";
     Pincode := lit "570001";
     EnterpriseName := lit "Kaveri Traders";
     CommunicationAddress := [];
     ActivityDescription := lit "Unspecified Activity";
     NIC5DigitId := lit "00000";
     NIC_Section := lit "00";
     NIC_Section_Desc := lit "Unspecified Section";
     NIC_Section_Code_Desc := lit "00 - Unspecified Section";
     NIC3DigitId := lit "000";
     Industry_Suggestion := lit "000 - Unspecified Activity" |}.

Definition sample_loaded : Loaded :=
  {| df := [bakery_row; unspecified_row];
     industry_suggestions :=
       [lit "000 - Unspecified Activity"; lit "107 - Bakery"];
     name_suggestions := [lit "Asha Bakers"; lit "Kaveri Traders"];
     pincode_options := [lit "411001"; lit "570001"];
     address_options := [[]] |}.

Definition maharashtra_chosen : Selections :=
  {| user_date_range := None;
     user_state := Some (lit "Maharashtra");
     user_district := None;
     user_industry := None;
     user_enterprise_name := None;
     user_pincode := None |}.

(** The sample file with a third row whose date could not be parsed. *)
Definition sample_rows_with_undated : list CsvRow :=
  sample_rows
  ++ [ csv_row None
         (CStr (qlit "'[{''Description'':''Tailoring'',''NIC5DigitId'':''14101''}]'"))
         "Goa" "Panaji" "403001" "Mandovi Tailors" ].

(** A file whose only payload carries a one-character code. *)
Definition short_code_rows : list CsvRow :=
  [ csv_row (Some (mkdate 2023 1 15))
      (CStr (qlit "[{'Description':'Bakery','NIC5DigitId':'1'}]"))
      "Maharashtra" "Pune" "411001" "Asha Bakers" ].

(** The table a run of the loader hands back (empty when it does not). *)
Definition loaded_of (run : ui Loaded) : Loaded :=
  match snd run with
  | Done loaded => loaded
  | _ => {| df := []; industry_suggestions := []; name_suggestions := [];
            pincode_options := []; address_options := [] |}
  end.


(** * Properties *)

(** ** Strings and lists *)

Lemma str_eqb_eq (a b : str) : str_eqb a b = true <-> a = b.
Proof.
  revert b; induction a as [|x a IH]; intros [|y b]; simpl;
    try (split; congruence).
  rewrite andb_true_iff, N.eqb_eq, IH. split.
  - intros [-> ->]; reflexivity.
  - intros H; injection H; auto.
Qed.

Lemma str_eqb_refl (a : str) : str_eqb a a = true.
Proof. apply str_eqb_eq; reflexivity. Qed.

Lemma str_eqb_neq (a b : str) : str_eqb a b = false <-> a <> b.
Proof.
  rewrite <- str_eqb_eq. destruct (str_eqb a b); split; congruence.
Qed.

Lemma str_leb_refl (a : str) : str_leb a a = true.
Proof.
  induction a as [|x a IH]; simpl; auto.
  rewrite N.ltb_irrefl, N.eqb_refl; exact IH.
Qed.

Lemma str_leb_total (a b : str) : str_leb a b = true \/ str_leb b a = true.
Proof.
  revert b; induction a as [|x a IH]; intros [|y b]; simpl; auto.
  destruct (N.ltb_spec x y); auto.
  destruct (N.ltb_spec y x); auto.
  assert (x = y) by lia; subst. rewrite N.eqb_refl. apply IH.
Qed.

Lemma str_leb_trans (a b c : str) :
  str_leb a b = true -> str_leb b c = true -> str_leb a c = true.
Proof.
  revert b c; induction a as [|x a IH]; intros [|y b] [|z c]; simpl; auto;
    try discriminate.
  destruct (N.ltb_spec x y), (N.ltb_spec y z), (N.ltb_spec x z); auto;
    try lia;
    destruct (N.eqb_spec x y), (N.eqb_spec y z), (N.eqb_spec x z);
    try discriminate; try lia; eauto.
Qed.

Lemma mask_and_map {A} (f g : A -> bool) (l : list A) :
  mask_and (map f l) (map g l) = map (fun x => f x && g x) l.
Proof. induction l; simpl; congruence. Qed.

Lemma select_map {A} (f : A -> bool) (l : list A) :
  select l (map f l) = filter f l.
Proof. induction l as [|x l IH]; simpl; auto. destruct (f x); congruence. Qed.

Lemma select_eq_mask {A} (f : A -> str) (l : list A) (x : str) :
  select l (eq_mask (map f l) x) = filter (fun r => str_eqb (f r) x) l.
Proof. unfold eq_mask. rewrite map_map. apply select_map. Qed.

Lemma select_isin {A} (f : A -> str) (l : list A) (values : list str) :
  select l (isin (map f l) values)
  = filter (fun r => existsb (str_eqb (f r)) values) l.
Proof. unfold isin. rewrite map_map. apply select_map. Qed.

Lemma existsb_str_eqb (x : str) (l : list str) :
  existsb (str_eqb x) l = true <-> In x l.
Proof.
  rewrite existsb_exists. split.
  - intros (y & Hy & E). apply str_eqb_eq in E. subst; auto.
  - intros H. exists x. split; auto. apply str_eqb_refl.
Qed.

Lemma In_unique (x : str) (l : list str) : In x (unique l) <-> In x l.
Proof.
  induction l as [|y l IH]; simpl; [tauto|].
  rewrite filter_In, IH, negb_true_iff, str_eqb_neq.
  destruct (list_eq_dec N.eq_dec y x); intuition.
Qed.

Lemma NoDup_unique (l : list str) : NoDup (unique l).
Proof.
  induction l as [|y l IH]; simpl; constructor.
  - rewrite filter_In, negb_true_iff, str_eqb_neq. intros [_ H]; auto.
  - apply NoDup_filter, IH.
Qed.

Lemma In_insert_sorted (x y : str) (l : list str) :
  In x (insert_sorted y l) <-> x = y \/ In x l.
Proof.
  induction l as [|z l IH]; simpl.
  - intuition.
  - destruct (str_leb y z); simpl; rewrite ?IH; intuition.
Qed.

Lemma In_sorted (x : str) (l : list str) : In x (sorted l) <-> In x l.
Proof.
  induction l as [|y l IH]; simpl; [tauto|].
  rewrite In_insert_sorted, IH. intuition.
Qed.

Lemma insert_sorted_ok (x : str) (l : list str) :
  StronglySorted str_le l -> StronglySorted str_le (insert_sorted x l).
Proof.
  induction 1 as [|y l Hs IH Hall]; simpl.
  - repeat constructor.
  - destruct (str_leb x y) eqn:E.
    + constructor; [constructor; auto|].
      constructor; [exact E|].
      eapply Forall_impl; [|exact Hall].
      intros z Hz. eapply str_leb_trans; eauto.
    + constructor; auto.
      apply Forall_forall. intros z Hz.
      apply In_insert_sorted in Hz. destruct Hz as [->|Hz].
      * destruct (str_leb_total x y) as [H|H]; [congruence|exact H].
      * rewrite Forall_forall in Hall. apply Hall, Hz.
Qed.

Lemma sorted_ok (l : list str) : StronglySorted str_le (sorted l).
Proof.
  induction l; simpl; [constructor|]. apply insert_sorted_ok; auto.
Qed.

Lemma sorted_head_least (l : list str) (x : str) (rest : list str) :
  sorted l = x :: rest -> forall y, In y l -> str_leb x y = true.
Proof.
  intros E y Hy. apply In_sorted in Hy. rewrite E in Hy.
  pose proof (sorted_ok l) as S. rewrite E in S.
  apply StronglySorted_inv in S. destruct S as [_ Hall].
  destruct Hy as [<-|Hy]; [apply str_leb_refl|].
  rewrite Forall_forall in Hall. apply Hall, Hy.
Qed.

(** ** Dates *)

Lemma date_leb_iff (a b : date) :
  date_leb a b = true <->
  (year a < year b
   \/ (year a = year b
       /\ (month a < month b \/ (month a = month b /\ day a <= day b))))%Z.
Proof.
  unfold date_leb, date_compare.
  destruct (Z.compare_spec (year a) (year b));
    [destruct (Z.compare_spec (month a) (month b));
       [destruct (Z.compare_spec (day a) (day b))| |]| |];
    split; intros; try discriminate; try reflexivity; lia.
Qed.

Lemma date_leb_refl (a : date) : date_leb a a = true.
Proof. apply date_leb_iff. lia. Qed.

Lemma date_leb_trans (a b c : date) :
  date_leb a b = true -> date_leb b c = true -> date_leb a c = true.
Proof. rewrite !date_leb_iff. lia. Qed.

Lemma date_leb_total (a b : date) : date_leb a b = true \/ date_leb b a = true.
Proof. rewrite !date_leb_iff. lia. Qed.

Lemma series_min_le_start (l : list date) (d : date) :
  date_leb (series_min l d) d = true.
Proof.
  revert d; induction l as [|x l IH]; intros d; simpl.
  - apply date_leb_refl.
  - eapply date_leb_trans; [apply IH|].
    unfold date_min. destruct (date_leb d x) eqn:E; [apply date_leb_refl|].
    destruct (date_leb_total d x); congruence.
Qed.

Lemma date_min_le_l (a b : date) : date_leb (date_min a b) a = true.
Proof.
  unfold date_min. destruct (date_leb a b) eqn:E; [apply date_leb_refl|].
  destruct (date_leb_total a b); congruence.
Qed.

Lemma date_min_le_r (a b : date) : date_leb (date_min a b) b = true.
Proof.
  unfold date_min. destruct (date_leb a b) eqn:E; [exact E|].
  apply date_leb_refl.
Qed.

Lemma date_max_ge_l (a b : date) : date_leb a (date_max a b) = true.
Proof.
  unfold date_max. destruct (date_leb a b) eqn:E; [exact E|].
  apply date_leb_refl.
Qed.

Lemma date_max_ge_r (a b : date) : date_leb b (date_max a b) = true.
Proof.
  unfold date_max. destruct (date_leb a b) eqn:E; [apply date_leb_refl|].
  destruct (date_leb_total a b); congruence.
Qed.

Lemma series_min_least (l : list date) (d x : date) :
  In x (d :: l) -> date_leb (series_min l d) x = true.
Proof.
  revert d; induction l as [|y l IH]; intros d H.
  - destruct H as [E|[]]. subst. apply date_leb_refl.
  - change (series_min (y :: l) d) with (series_min l (date_min d y)).
    destruct H as [E|[E|H]]; subst.
    + eapply date_leb_trans; [apply series_min_le_start|apply date_min_le_l].
    + eapply date_leb_trans; [apply series_min_le_start|apply date_min_le_r].
    + apply IH. right; exact H.
Qed.

Lemma series_min_In (l : list date) (d : date) : In (series_min l d) (d :: l).
Proof.
  revert d; induction l as [|y l IH]; intros d; simpl; auto.
  specialize (IH (date_min d y)). simpl in IH.
  unfold date_min in IH at 1. destruct (date_leb d y); tauto.
Qed.

Lemma series_max_ge_start (l : list date) (d : date) :
  date_leb d (series_max l d) = true.
Proof.
  revert d; induction l as [|x l IH]; intros d; simpl.
  - apply date_leb_refl.
  - eapply date_leb_trans; [|apply IH].
    unfold date_max. destruct (date_leb d x) eqn:E; [exact E|].
    apply date_leb_refl.
Qed.

Lemma series_max_greatest (l : list date) (d x : date) :
  In x (d :: l) -> date_leb x (series_max l d) = true.
Proof.
  revert d; induction l as [|y l IH]; intros d H.
  - destruct H as [E|[]]. subst. apply date_leb_refl.
  - change (series_max (y :: l) d) with (series_max l (date_max d y)).
    destruct H as [E|[E|H]]; subst.
    + eapply date_leb_trans; [apply date_max_ge_l|apply series_max_ge_start].
    + eapply date_leb_trans; [apply date_max_ge_r|apply series_max_ge_start].
    + apply IH. right; exact H.
Qed.

Lemma series_max_In (l : list date) (d : date) : In (series_max l d) (d :: l).
Proof.
  revert d; induction l as [|y l IH]; intros d; simpl; auto.
  specialize (IH (date_max d y)). simpl in IH.
  unfold date_max in IH at 1. destruct (date_leb d y); tauto.
Qed.

Lemma date_filtered_df_filter (df : list Row) (s e : date) :
  date_filtered_df df s e
  = filter (fun r => date_leb s (RegistrationDate r)
                     && date_leb (RegistrationDate r) e) df.
Proof.
  unfold date_filtered_df. rewrite mask_and_map, map_map. apply select_map.
Qed.

Lemma filter_all {A} (f : A -> bool) (l : list A) :
  (forall x, In x l -> f x = true) -> filter f l = l.
Proof.
  induction l as [|x l IH]; simpl; intros H; auto.
  rewrite (H x (or_introl eq_refl)). f_equal. apply IH. auto.
Qed.

(** The elements [filter_controls] renders, and what it hands on. *)
Lemma filter_controls_eq (loaded : Loaded) (first : Row) (rest : list Row)
  (user : Selections) :
  let dates := map RegistrationDate rest in
  let min_date := series_min dates (RegistrationDate first) in
  let max_date := series_max dates (RegistrationDate first) in
  let date_range := widget (min_date, max_date) (user_date_range user) in
  let date_filtered :=
    date_filtered_df (df loaded) (fst date_range) (snd date_range) in
  let state_filtered :=
    state_filtered_df date_filtered (widget (lit "All States") (user_state user)) in
  let district :=
    district_filtered_df state_filtered
      (widget (lit "All Districts") (user_district user)) in
  filter_controls loaded first rest user
  = ([ st_title (128202%N :: lit " UDYAM Registrations Dashboard");
       st_markdown_total (List.length (df loaded));
       st_subheader (lit "Time");
       st_slider (lit "1. Registration Date Range") min_date max_date
         (min_date, max_date);
       st_subheader (lit "Geography");
       st_selectbox (lit "2. Select State") (state_options date_filtered);
       st_selectbox (lit "3. Select District") (district_options state_filtered);
       st_subheader (lit "Search Parameters");
       st_multiselect (lit "5. Filter by Industry (NIC 3-Digit / Activity)")
         (industry_suggestions loaded);
       st_multiselect (lit "6. Filter by Enterprise Name")
         (name_options (fst district));
       st_multiselect (lit "4. Filter by Pincode") (pincode_options loaded) ],
     Done (fst district, snd district,
           widget [] (user_pincode user), widget [] (user_industry user),
           widget [] (user_enterprise_name user))).
Proof.
  intros. unfold filter_controls.
  fold dates. fold min_date. fold max_date. fold date_range.
  fold date_filtered. fold state_filtered. fold district.
  destruct district as [district_filtered flag]. reflexivity.
Qed.

(** C7: the date-range stage keeps exactly the rows whose registration
    date lies between the two bounds, both included, in their order; the
    slider's bounds and its default value are the least and the greatest
    date of the table, so an untouched slider keeps every row; the range
    2023-01-01 to 2023-01-31 drops a row dated 2023-02-01 and keeps one
    dated 2023-01-15. *)
Theorem date_range_stage_inclusive :
  (forall df s e,
     date_filtered_df df s e
     = filter (fun r => date_leb s (RegistrationDate r)
                        && date_leb (RegistrationDate r) e) df)
  /\ (forall df s e r,
        In r (date_filtered_df df s e) <->
        In r df /\ date_leb s (RegistrationDate r) = true
        /\ date_leb (RegistrationDate r) e = true)
  /\ (forall loaded first rest user,
        let min_date :=
          series_min (map RegistrationDate rest) (RegistrationDate first) in
        let max_date :=
          series_max (map RegistrationDate rest) (RegistrationDate first) in
        In (st_slider (lit "1. Registration Date Range") min_date max_date
              (min_date, max_date))
           (fst (filter_controls loaded first rest user))
        /\ widget (min_date, max_date) None = (min_date, max_date)
        /\ In min_date (map RegistrationDate (first :: rest))
        /\ In max_date (map RegistrationDate (first :: rest))
        /\ (forall r, In r (first :: rest) ->
              date_leb min_date (RegistrationDate r) = true
              /\ date_leb (RegistrationDate r) max_date = true)
        /\ date_filtered_df (first :: rest) min_date max_date = first :: rest)
  /\ (forall df r,
        RegistrationDate r = mkdate 2023 2 1 ->
        ~ In r (date_filtered_df df (mkdate 2023 1 1) (mkdate 2023 1 31)))
  /\ (forall df r,
        RegistrationDate r = mkdate 2023 1 15 -> In r df ->
        In r (date_filtered_df df (mkdate 2023 1 1) (mkdate 2023 1 31))).
Proof.
  assert (Hmem : forall df s e r,
             In r (date_filtered_df df s e) <->
             In r df /\ date_leb s (RegistrationDate r) = true
             /\ date_leb (RegistrationDate r) e = true).
  { intros. rewrite date_filtered_df_filter, filter_In, andb_true_iff.
    tauto. }
  split; [exact date_filtered_df_filter|].
  split; [exact Hmem|].
  split; [|split].
  - intros loaded first rest user min_date max_date.
    assert (Hb : forall r, In r (first :: rest) ->
               date_leb min_date (RegistrationDate r) = true
               /\ date_leb (RegistrationDate r) max_date = true).
    { intros r Hr. split.
      - apply series_min_least. apply (in_map RegistrationDate) in Hr.
        exact Hr.
      - apply series_max_greatest. apply (in_map RegistrationDate) in Hr.
        exact Hr. }
    split; [|split; [|split; [|split; [|split]]]].
    + rewrite filter_controls_eq. simpl. tauto.
    + reflexivity.
    + apply series_min_In.
    + apply series_max_In.
    + exact Hb.
    + rewrite date_filtered_df_filter. apply filter_all.
      intros r Hr. destruct (Hb r Hr) as [-> ->]. reflexivity.
  - intros df r E H. apply Hmem in H. rewrite E in H.
    destruct H as (_ & _ & H). discriminate H.
  - intros df r E H. apply Hmem. rewrite E. auto.
Qed.

(** ** Pass-through *)

(** C3: the "All States" and "All Districts" choices and an empty
    multi-choice selection leave their stage's input unchanged, so the
    filtered table is the one the remaining stages alone produce. *)
Theorem pass_through_law :
  (forall t, state_filtered_df t (lit "All States") = t)
  /\ (forall t, district_filtered_df t (lit "All Districts") = (t, false))
  /\ (forall t, pincode_stage t [] = t)
  /\ (forall t, industry_stage t [] = t)
  /\ (forall t, name_stage t [] = t)
  /\ (forall df range sd sp si sn,
        pipeline df range (lit "All States") sd sp si sn
        = final_filter
            (fst (district_filtered_df
                    (date_filtered_df df (fst range) (snd range)) sd))
            sp si sn)
  /\ (forall df range ss sp si sn,
        pipeline df range ss (lit "All Districts") sp si sn
        = final_filter
            (state_filtered_df (date_filtered_df df (fst range) (snd range)) ss)
            sp si sn)
  /\ (forall df range ss sd si sn,
        pipeline df range ss sd [] si sn
        = name_stage
            (industry_stage
               (fst (district_filtered_df
                       (state_filtered_df
                          (date_filtered_df df (fst range) (snd range)) ss) sd))
               si) sn)
  /\ (forall df range ss sd sp sn,
        pipeline df range ss sd sp [] sn
        = name_stage
            (pincode_stage
               (fst (district_filtered_df
                       (state_filtered_df
                          (date_filtered_df df (fst range) (snd range)) ss) sd))
               sp) sn)
  /\ (forall df range ss sd sp si,
        pipeline df range ss sd sp si []
        = industry_stage
            (pincode_stage
               (fst (district_filtered_df
                       (state_filtered_df
                          (date_filtered_df df (fst range) (snd range)) ss) sd))
               sp) si).
Proof.
  assert (Hs : forall t, state_filtered_df t (lit "All States") = t).
  { intros t. unfold state_filtered_df. rewrite str_eqb_refl. reflexivity. }
  assert (Hd : forall t, district_filtered_df t (lit "All Districts") = (t, false)).
  { intros t. unfold district_filtered_df. rewrite str_eqb_refl. reflexivity. }
  repeat split; intros; auto; unfold pipeline, final_filter;
    rewrite ?Hs, ?Hd; reflexivity.
Qed.

(** ** The most frequent description *)

Lemma count_of_pos (x : str) (l : list str) : In x l -> 0 < count_of x l.
Proof.
  unfold count_of. induction l as [|y l IH]; simpl; [tauto|].
  intros [->|H].
  - rewrite str_eqb_refl. simpl. lia.
  - destruct (str_eqb x y); simpl; auto. lia.
Qed.

Lemma count_of_absent (x : str) (l : list str) : ~ In x l -> count_of x l = 0.
Proof.
  unfold count_of. induction l as [|y l IH]; simpl; [reflexivity|].
  intros H. destruct (str_eqb x y) eqn:E.
  - apply str_eqb_eq in E. subst. tauto.
  - apply IH. tauto.
Qed.

Lemma fold_max_upper (g : str -> nat) (l : list str) (x : str) :
  In x l -> g x <= fold_right (fun y m => Nat.max (g y) m) 0 l.
Proof.
  induction l as [|y l IH]; simpl; [tauto|].
  intros [->|H]; [lia|]. specialize (IH H). lia.
Qed.

Lemma fold_max_attained (g : str -> nat) (l : list str) :
  l <> [] ->
  exists x, In x l /\ g x = fold_right (fun y m => Nat.max (g y) m) 0 l.
Proof.
  induction l as [|y l IH]; [congruence|]. intros _. simpl.
  destruct l as [|z l].
  - exists y. simpl. split; auto. lia.
  - destruct IH as (x & Hx & E); [discriminate|].
    destruct (Nat.le_ge_cases (g y) (g x)).
    + exists x. split; [right; exact Hx|]. rewrite <- E. lia.
    + exists y. split; [left; reflexivity|]. rewrite <- E. lia.
Qed.

Lemma max_count_upper (l : list str) (x : str) : count_of x l <= max_count l.
Proof.
  destruct (in_dec (list_eq_dec N.eq_dec) x l) as [H|H].
  - apply (fold_max_upper (fun y => count_of y l)), H.
  - rewrite (count_of_absent x l H). lia.
Qed.

Lemma In_mode (l : list str) (x : str) :
  In x (mode l) <-> In x l /\ count_of x l = max_count l.
Proof.
  unfold mode. rewrite In_sorted, filter_In, In_unique, Nat.eqb_eq. tauto.
Qed.

Lemma NoDup_insert_sorted (x : str) (l : list str) :
  ~ In x l -> NoDup l -> NoDup (insert_sorted x l).
Proof.
  induction l as [|y l IH]; simpl; intros Hx Hl.
  - constructor; auto.
  - destruct (str_leb x y).
    + constructor; auto.
    + inversion Hl; subst. constructor.
      * rewrite In_insert_sorted. intuition.
      * apply IH; auto.
Qed.

Lemma NoDup_sorted (l : list str) : NoDup l -> NoDup (sorted l).
Proof.
  induction 1 as [|x l Hx Hl IH]; simpl; [constructor|].
  apply NoDup_insert_sorted; auto. rewrite In_sorted. exact Hx.
Qed.

Lemma mode_nonempty (l : list str) : l <> [] -> mode l <> [].
Proof.
  intros H E.
  destruct (fold_max_attained (fun y => count_of y l) H) as (x & Hx & Hc).
  assert (Hm : In x (mode l)) by (apply In_mode; split; assumption).
  rewrite E in Hm. exact Hm.
Qed.

Lemma count_of_In (x : str) (l : list str) : 0 < count_of x l -> In x l.
Proof.
  intros H. destruct (in_dec (list_eq_dec N.eq_dec) x l) as [Hin|Hout]; auto.
  rewrite (count_of_absent x l Hout) in H. lia.
Qed.

Lemma In_dropna_values (x : str) (col : list (option str)) :
  In x (dropna_values col) <-> In (Some x) col.
Proof.
  unfold dropna_values. rewrite in_flat_map. split.
  - intros ([s|] & Hd & Hs); simpl in Hs; [|tauto].
    destruct Hs as [<-|[]]. exact Hd.
  - intros H. exists (Some x). split; [exact H|left; reflexivity].
Qed.

Lemma count_of_dropna_values (x : str) (col : list (option str)) :
  count_of x (dropna_values col) = occurrences (Some x) col.
Proof.
  unfold count_of, occurrences, dropna_values.
  induction col as [|[s|] col IH];
    cbn [flat_map app filter count_occ]; [reflexivity| |].
  - destruct (description_eq_dec (Some s) (Some x)) as [E|E];
      destruct (str_eqb x s) eqn:Es.
    + cbn [List.length]. f_equal. exact IH.
    + injection E as ->. rewrite str_eqb_refl in Es. discriminate Es.
    + apply str_eqb_eq in Es. subst. congruence.
    + exact IH.
  - destruct (description_eq_dec None (Some x)) as [E|E];
      [discriminate E|exact IH].
Qed.

Lemma top_activity_desc_column (filtered_df : list Row) :
  top_activity_desc filtered_df
  = top_activity_desc_of (map (fun r => Some (ActivityDescription r)) filtered_df).
Proof.
  assert (E : forall l : list Row,
             dropna_values (map (fun r => Some (ActivityDescription r)) l)
             = map ActivityDescription l).
  { induction l as [|r l IH]; simpl; [reflexivity|]. f_equal. exact IH. }
  unfold top_activity_desc, top_activity_desc_of.
  destruct filtered_df as [|first rest]; [reflexivity|].
  rewrite E. reflexivity.
Qed.

(** C9, and where the code departs from it.  The expression of line 259
    is taken on a non-empty column whose descriptions may be null.
    When the column holds a description, the value shown is one of the
    column's descriptions, none occurs more often, and among those that
    occur as often it is the least in the order of the mode table
    (ascending by code points, whatever the order of the rows).  When
    every description is null, the guard on [.empty] lets the column
    through, the mode table is empty and [iloc[0]] raises IndexError.
    On a table of the script, the metric "Top Industry Description"
    renders the value of that expression. *)
Theorem top_description_most_frequent (col : list (option str)) :
  col <> [] ->
  ((exists x, In (Some x) col) ->
     exists top,
       top_activity_desc_of col = Ok top
       /\ In (Some top) col
       /\ (forall x, occurrences (Some x) col <= occurrences (Some top) col)
       /\ (forall x, occurrences (Some x) col = occurrences (Some top) col ->
                     str_leb top x = true))
  /\ ((forall x, ~ In (Some x) col) ->
      top_activity_desc_of col = Raise IndexError)
  /\ (forall (filtered_df : list Row) (flag : bool),
        col = map (fun r => Some (ActivityDescription r)) filtered_df ->
        exists top,
          top_activity_desc_of col = Ok top
          /\ top_activity_desc filtered_df = Ok top
          /\ In (st_metric (lit "Top Industry Description") (MText top))
                (fst (presentation filtered_df flag))).
Proof.
  intros Hne.
  assert (Hsome : (exists x, In (Some x) col) ->
     exists top,
       top_activity_desc_of col = Ok top
       /\ In (Some top) col
       /\ (forall x, occurrences (Some x) col <= occurrences (Some top) col)
       /\ (forall x, occurrences (Some x) col = occurrences (Some top) col ->
                     str_leb top x = true)).
  { intros (x0 & Hx0).
    assert (Hv : dropna_values col <> []).
    { apply In_dropna_values in Hx0. intros E. rewrite E in Hx0. exact Hx0. }
    destruct (mode (dropna_values col)) as [|top others] eqn:E;
      [exfalso; exact (mode_nonempty Hv E)|].
    assert (Htop : In top (dropna_values col)
                   /\ count_of top (dropna_values col)
                      = max_count (dropna_values col)).
    { apply In_mode. rewrite E. left; reflexivity. }
    destruct Htop as [Hin Hcount].
    exists top. split; [|split; [|split]].
    - unfold top_activity_desc_of. destruct col; [congruence|].
      rewrite E. reflexivity.
    - apply In_dropna_values, Hin.
    - intros x. rewrite <- !count_of_dropna_values, Hcount.
      apply max_count_upper.
    - intros x Hc. rewrite <- !count_of_dropna_values in Hc.
      unfold mode in E. eapply sorted_head_least; [exact E|].
      rewrite filter_In, In_unique, Nat.eqb_eq. split.
      + apply count_of_In. rewrite Hc. apply count_of_pos, Hin.
      + rewrite Hc. exact Hcount. }
  split; [exact Hsome|]. split.
  - intros Hnull.
    assert (Hv : dropna_values col = []).
    { destruct (dropna_values col) as [|x l] eqn:E; [reflexivity|].
      exfalso. apply (Hnull x), In_dropna_values. rewrite E. left; reflexivity. }
    unfold top_activity_desc_of. destruct col; [congruence|].
    rewrite Hv. reflexivity.
  - intros filtered_df flag Hcol.
    destruct filtered_df as [|first rest];
      [exfalso; apply Hne; rewrite Hcol; reflexivity|].
    destruct Hsome as (top & Htop & _).
    { exists (ActivityDescription first). rewrite Hcol. left; reflexivity. }
    assert (Hdesc : top_activity_desc (first :: rest) = Ok top).
    { rewrite top_activity_desc_column, <- Hcol. exact Htop. }
    exists top. split; [exact Htop|]. split; [exact Hdesc|].
    unfold presentation. rewrite Hdesc.
    destruct flag; simpl; do 3 right; left; reflexivity.
Qed.

(** ** The industry stage *)

Lemma startswith_app (s sep : str) :
  startswith s sep = true <-> exists rest, s = sep ++ rest.
Proof.
  revert s; induction sep as [|x sep IH]; intros s; simpl.
  - split; [exists s; reflexivity|reflexivity].
  - destruct s as [|y s].
    + split; [discriminate|]. intros (rest & H). discriminate H.
    + rewrite andb_true_iff, N.eqb_eq, IH. split.
      * intros (-> & rest & ->). exists rest. reflexivity.
      * intros (rest & H). injection H as -> ->. eauto.
Qed.

Lemma before_first_spec (sep s : str) :
  exists rest,
    s = before_first sep s ++ rest
    /\ (rest = [] \/ startswith rest sep = true)
    /\ forall i, i < List.length (before_first sep s) ->
                 startswith (skipn i s) sep = false.
Proof.
  induction s as [|c s (rest & E & Hrest & Hearlier)].
  - exists []. simpl. repeat split; auto. intros i H; lia.
  - simpl before_first. destruct (startswith (c :: s) sep) eqn:Hc.
    + exists (c :: s). repeat split; auto. simpl. intros i H; lia.
    + exists rest. split; [simpl; congruence|]. split; [exact Hrest|].
      intros [|i] H; [exact Hc|]. simpl in H. simpl skipn.
      apply Hearlier. lia.
Qed.

Lemma split_from_hd (sep s cur : str) :
  hd [] (split_from 0 sep cur s) = rev cur ++ before_first sep s.
Proof.
  revert cur; induction s as [|c s IH]; intros cur.
  - simpl. rewrite app_nil_r. reflexivity.
  - simpl split_from. simpl before_first.
    destruct (startswith (c :: s) sep).
    + simpl. rewrite app_nil_r. reflexivity.
    + rewrite IH. simpl. rewrite <- app_assoc. reflexivity.
Qed.

Lemma split_hd (sep s : str) : hd [] (split s sep) = before_first sep s.
Proof. unfold split. rewrite split_from_hd. reflexivity. Qed.

Lemma selected_nic3_codes_eq (sel : list str) :
  selected_nic3_codes sel
  = map (fun label => strip (before_first (lit " - ") label)) sel.
Proof.
  unfold selected_nic3_codes. apply map_ext. intros label.
  rewrite split_hd. reflexivity.
Qed.

(** C6, as the script does it: for a non-empty selection the industry
    stage takes from each label the text before the first " - ", strips
    the white space around it, and keeps exactly the rows (in order) whose
    NIC3DigitId is one of these codes, whatever their description;
    selecting "107 - Bakery" keeps exactly the rows with NIC3DigitId
    "107". *)
Theorem industry_stage_keeps_stripped_codes (t : list Row) (sel : list str) :
  sel <> [] ->
  industry_stage t sel
  = filter (fun r =>
              existsb (str_eqb (NIC3DigitId r))
                (map (fun label => strip (before_first (lit " - ") label)) sel))
      t
  /\ (forall r,
        In r (industry_stage t sel) <->
        In r t
        /\ exists label,
             In label sel
             /\ NIC3DigitId r = strip (before_first (lit " - ") label))
  /\ (forall r,
        In r (industry_stage t [lit "107 - Bakery"]) <->
        In r t /\ NIC3DigitId r = lit "107").
Proof.
  intros Hsel.
  assert (Heq : forall sel', sel' <> [] ->
            industry_stage t sel'
            = filter (fun r =>
                        existsb (str_eqb (NIC3DigitId r))
                          (map (fun label =>
                                  strip (before_first (lit " - ") label)) sel'))
                t).
  { intros [|l sel'] H; [congruence|].
    unfold industry_stage. rewrite select_isin, selected_nic3_codes_eq.
    reflexivity. }
  split; [apply Heq, Hsel|]. split.
  - intros r. rewrite (Heq sel Hsel), filter_In, existsb_str_eqb, in_map_iff.
    split.
    + intros (Hr & label & E & Hl). split; [exact Hr|]. exists label. auto.
    + intros (Hr & label & Hl & E). split; [exact Hr|]. exists label. auto.
  - intros r. rewrite Heq by discriminate. rewrite filter_In.
    change (map (fun label => strip (before_first (lit " - ") label))
              [lit "107 - Bakery"]) with [lit "107"].
    simpl existsb. rewrite orb_false_r, str_eqb_eq. reflexivity.
Qed.

(** ** The loader *)

Section LoaderProperties.

Variable py_repr : json -> str.

Lemma apply_In {A B} (f : A -> result B) (l : list A) (ys : list B) (y : B) :
  apply f l = Ok ys -> In y ys -> exists x, In x l /\ f x = Ok y.
Proof.
  revert ys; induction l as [|x l IH]; simpl; intros ys H Hy.
  - injection H as <-. destruct Hy.
  - destruct (f x) as [b|e] eqn:Ef; simpl in H; [|discriminate].
    destruct (apply f l) as [bs|e] eqn:El; simpl in H; [|discriminate].
    injection H as <-. destruct Hy as [<-|Hy].
    + exists x. auto.
    + destruct (IH bs eq_refl Hy) as (x' & Hx' & E). exists x'. auto.
Qed.

Lemma dropna_In (l : list (CsvRow * (json * str))) d r p :
  In (d, r, p) (dropna l) -> In (r, p) l /\ csv_RegistrationDate r = Some d.
Proof.
  induction l as [|[r' p'] l IH]; simpl; [tauto|].
  destruct (csv_RegistrationDate r') as [d'|] eqn:E.
  - intros [H|H].
    + injection H as -> -> ->. auto.
    + destruct (IH H). auto.
  - intros H. destruct (IH H). auto.
Qed.

(** Where a row of the normalized table comes from. *)
Lemma normalize_In (rows : list CsvRow) (table : list Row) (r : Row) :
  normalize py_repr rows = Ok table -> In r table ->
  exists x d description nic5,
    In x rows
    /\ csv_RegistrationDate x = Some d
    /\ parse_activities py_repr (cell_str (csv_Activities x))
       = Ok (description, nic5)
    /\ build_row (d, x, (description, nic5)) = Ok r.
Proof.
  unfold normalize. intros H Hr.
  destruct (apply _ rows) as [parsed|e] eqn:Ep; simpl in H; [|discriminate].
  destruct (@apply_In _ _ _ _ _ _ H Hr) as ([[d x] [description nic5]] & Hx & Hb).
  apply dropna_In in Hx. destruct Hx as [Hx Hd].
  destruct (@apply_In _ _ _ _ _ _ Ep Hx) as (x' & Hx' & E).
  destruct (parse_activities py_repr (cell_str (csv_Activities x'))) as [p|e]
    eqn:Epa; simpl in E; [|discriminate].
  injection E as -> ->.
  exists x, d, description, nic5. auto.
Qed.

Lemma build_row_fields d x description nic5 r :
  build_row (d, x, (description, nic5)) = Ok r ->
  description = JStr (ActivityDescription r)
  /\ RegistrationDate r = d
  /\ NIC5DigitId r = nic5
  /\ NIC_Section r = NIC_Section_of nic5
  /\ NIC3DigitId r = NIC3DigitId_of nic5
  /\ NIC_Section_Desc r = NIC_Section_Desc_of (NIC_Section_of nic5)
  /\ Industry_Suggestion r
     = NIC3DigitId_of nic5 ++ lit " - " ++ ActivityDescription r.
Proof.
  unfold build_row. destruct description; try discriminate.
  intros H. injection H as <-. simpl. repeat split; reflexivity.
Qed.

(** What a completed load hands back. *)
Lemma load_done (fs : filesystem) (path : str) out (loaded : Loaded) :
  load_and_process_data py_repr fs path = (out, Done loaded) ->
  (df loaded = []
   \/ exists rows, fs path = Some rows /\ normalize py_repr rows = Ok (df loaded))
  /\ industry_suggestions loaded
     = sorted (unique (map Industry_Suggestion (df loaded)))
  /\ name_suggestions loaded = sorted (unique (map EnterpriseName (df loaded)))
  /\ pincode_options loaded = sorted (unique (map Pincode (df loaded)))
  /\ address_options loaded
     = sorted (unique (map CommunicationAddress (df loaded))).
Proof.
  unfold load_and_process_data, read_csv.
  destruct (fs path) as [rows|] eqn:Efs; simpl.
  - destruct (normalize py_repr rows) as [table|e] eqn:En.
    + intros H. injection H as <- <-. simpl. repeat split; eauto.
    + destruct e; intros H; try discriminate H.
      injection H as <- <-. simpl. repeat split; auto.
  - intros H. injection H as <- <-. simpl. repeat split; auto.
Qed.

Lemma load_In (fs : filesystem) (path : str) out (loaded : Loaded) (r : Row) :
  load_and_process_data py_repr fs path = (out, Done loaded) ->
  In r (df loaded) ->
  exists rows x d description nic5,
    fs path = Some rows
    /\ In x rows
    /\ csv_RegistrationDate x = Some d
    /\ parse_activities py_repr (cell_str (csv_Activities x))
       = Ok (description, nic5)
    /\ build_row (d, x, (description, nic5)) = Ok r.
Proof.
  intros H Hr. destruct (@load_done _ _ _ _ H) as [[E|(rows & Efs & En)] _].
  - rewrite E in Hr. destruct Hr.
  - destruct (@normalize_In _ _ _ En Hr) as (x & d & description & nic5 & Hx).
    exists rows, x, d, description, nic5. tauto.
Qed.

Lemma startswith_firstn (n : nat) (s : str) : startswith s (firstn n s) = true.
Proof.
  revert n; induction s as [|c s IH]; intros [|n]; simpl; auto.
  rewrite N.eqb_refl. apply IH.
Qed.

Lemma NIC_Section_of_nonempty (nic5 : str) :
  nic5 <> [] -> NIC_Section_of nic5 = slice_to 2 nic5.
Proof. destruct nic5; [congruence|reflexivity]. Qed.

Lemma NIC3DigitId_of_nonempty (nic5 : str) :
  nic5 <> [] -> NIC3DigitId_of nic5 = slice_to 3 nic5.
Proof. destruct nic5; [congruence|reflexivity]. Qed.

(** C4, as the loader does it: in every row of the normalized table with a
    non-empty NIC5DigitId, NIC_Section and NIC3DigitId are its first two
    and first three characters, hence prefixes of it; with an empty
    NIC5DigitId they are "00" and "000"; and NIC_Section_Desc is the label
    NIC_SECTION_MAPPING gives for NIC_Section, or "Other/Unmapped Section"
    when it has none. *)
Theorem section_codes_are_prefixes (fs : filesystem) (path : str)
  (out : list element) (loaded : Loaded) (r : Row) :
  load_and_process_data py_repr fs path = (out, Done loaded) ->
  In r (df loaded) ->
  (NIC5DigitId r <> [] ->
     NIC_Section r = slice_to 2 (NIC5DigitId r)
     /\ NIC3DigitId r = slice_to 3 (NIC5DigitId r)
     /\ startswith (NIC5DigitId r) (NIC_Section r) = true
     /\ startswith (NIC5DigitId r) (NIC3DigitId r) = true)
  /\ (NIC5DigitId r = [] ->
        NIC_Section r = lit "00" /\ NIC3DigitId r = lit "000")
  /\ ((exists label,
         mapping_get NIC_SECTION_MAPPING (NIC_Section r) = Some label
         /\ NIC_Section_Desc r = label)
      \/ (mapping_get NIC_SECTION_MAPPING (NIC_Section r) = None
          /\ NIC_Section_Desc r = lit "Other/Unmapped Section")).
Proof.
  intros H Hr.
  destruct (@load_In _ _ _ _ _ H Hr)
    as (rows & x & d & description & nic5 & _ & _ & _ & _ & Hb).
  apply build_row_fields in Hb.
  destruct Hb as (_ & _ & E5 & E2 & E3 & Ed & _).
  rewrite E2, E3, Ed, E5. split; [|split].
  - intros Hne.
    rewrite (@NIC_Section_of_nonempty _ Hne), (@NIC3DigitId_of_nonempty _ Hne).
    unfold slice_to. rewrite !startswith_firstn. auto.
  - intros ->. split; reflexivity.
  - unfold NIC_Section_Desc_of, map_fillna.
    destruct (mapping_get NIC_SECTION_MAPPING (NIC_Section_of nic5)) as [label|];
      [left; exists label; auto|right; auto].
Qed.

Lemma is_digits_codes (nic5 : str) :
  is_digits 5 nic5 = true ->
  is_digits 2 (NIC_Section_of nic5) = true
  /\ is_digits 3 (NIC3DigitId_of nic5) = true.
Proof.
  unfold is_digits.
  destruct nic5 as [|a [|b [|c [|d [|e [|f u]]]]]]; try discriminate.
  unfold NIC_Section_of, NIC3DigitId_of, replace_value, slice_to.
  simpl. rewrite !andb_true_r.
  destruct (is_digit a), (is_digit b), (is_digit c); simpl; auto;
    discriminate.
Qed.

Lemma parse_activities_fallback (payload : str) (e : exn) p :
  parse_body py_repr payload = Raise e ->
  parse_activities py_repr payload = Ok p ->
  handled e = true /\ p = sentinel.
Proof.
  unfold parse_activities, try_except. intros ->.
  destruct (handled e); [|discriminate].
  intros H. injection H as <-. auto.
Qed.

Lemma parse_activities_first_dict (payload : str) data m :
  loads (clean_quotes payload) = Ok data ->
  getitem data 0 = Ok (JDict m) ->
  parse_activities py_repr payload
  = Ok (match dict_lookup m (lit "Description") with
        | Some v => v
        | None => JStr (lit "Unspecified Activity")
        end,
        py_str py_repr
          match dict_lookup m (lit "NIC5DigitId") with
          | Some v => v
          | None => JStr (lit "00000")
          end).
Proof.
  intros Hl Hg. unfold parse_activities, parse_body.
  rewrite Hl. simpl bind. rewrite Hg. reflexivity.
Qed.

(** C5, as the loader does it: in every row of the normalized table
    NIC_Section and NIC3DigitId are the first two and three characters of
    NIC5DigitId ("00" and "000" when it is empty), so they are a 2-digit
    and a 3-digit string whenever NIC5DigitId is a 5-digit string;
    NIC5DigitId is the sentinel "00000", with "00" and "000", when the
    payload fails to parse with a caught error or its first activity has
    no NIC5DigitId; otherwise it is [str] of the value the payload
    carries, which the loader does not check. *)
Theorem codes_follow_the_payload (fs : filesystem) (path : str)
  (out : list element) (loaded : Loaded) (r : Row) :
  load_and_process_data py_repr fs path = (out, Done loaded) ->
  In r (df loaded) ->
  NIC_Section r = NIC_Section_of (NIC5DigitId r)
  /\ NIC3DigitId r = NIC3DigitId_of (NIC5DigitId r)
  /\ (is_digits 5 (NIC5DigitId r) = true ->
        is_digits 2 (NIC_Section r) = true
        /\ is_digits 3 (NIC3DigitId r) = true)
  /\ exists rows x,
       fs path = Some rows /\ In x rows
       /\ parse_activities py_repr (cell_str (csv_Activities x))
          = Ok (JStr (ActivityDescription r), NIC5DigitId r)
       /\ (forall e,
             parse_body py_repr (cell_str (csv_Activities x)) = Raise e ->
             ActivityDescription r = lit "Unspecified Activity"
             /\ NIC5DigitId r = lit "00000"
             /\ NIC_Section r = lit "00" /\ NIC3DigitId r = lit "000")
       /\ (forall data m,
             loads (clean_quotes (cell_str (csv_Activities x))) = Ok data ->
             getitem data 0 = Ok (JDict m) ->
             dict_lookup m (lit "NIC5DigitId") = None ->
             NIC5DigitId r = lit "00000"
             /\ NIC_Section r = lit "00" /\ NIC3DigitId r = lit "000")
       /\ (forall data m v,
             loads (clean_quotes (cell_str (csv_Activities x))) = Ok data ->
             getitem data 0 = Ok (JDict m) ->
             dict_lookup m (lit "NIC5DigitId") = Some v ->
             NIC5DigitId r = py_str py_repr v).
Proof.
  intros H Hr.
  destruct (@load_In _ _ _ _ _ H Hr)
    as (rows & x & d & description & nic5 & Hfs & Hx & _ & Hp & Hb).
  apply build_row_fields in Hb.
  destruct Hb as (-> & _ & E5 & E2 & E3 & _ & _).
  rewrite <- E5 in E2, E3, Hp.
  split; [exact E2|]. split; [exact E3|]. split.
  { intros Hd. rewrite E2, E3. apply is_digits_codes, Hd. }
  exists rows, x. split; [exact Hfs|]. split; [exact Hx|].
  split; [exact Hp|]. split; [|split].
  - intros e He. destruct (parse_activities_fallback _ He Hp) as [_ E].
    injection E as Ed En. rewrite E2, E3, En. auto.
  - intros data m Hl Hg Hk.
    rewrite (parse_activities_first_dict _ Hl Hg), Hk in Hp.
    injection Hp as _ En. rewrite E2, E3, <- En. auto.
  - intros data m v Hl Hg Hk.
    rewrite (parse_activities_first_dict _ Hl Hg), Hk in Hp.
    injection Hp as _ En. auto.
Qed.

Lemma normalize_first_raises (r : CsvRow) (rows : list CsvRow) (e : exn) :
  parse_activities py_repr (cell_str (csv_Activities r)) = Raise e ->
  normalize py_repr (r :: rows) = Raise e.
Proof. intros H. unfold normalize. simpl. rewrite H. reflexivity. Qed.

(** C1, where the code departs from it: a payload that decodes to a JSON
    object makes [parse_activities] raise KeyError, and one that decodes
    to a non-empty string, or to a list whose first element is not an
    object, makes it raise AttributeError; neither is among the caught
    exceptions, so the loader and the script end with that exception. *)
Theorem parse_activities_lets_errors_escape :
  parse_activities py_repr (qlit "{}") = Raise KeyError
  /\ parse_activities py_repr (qlit "'Bakery'") = Raise AttributeError
  /\ parse_activities py_repr (qlit "[10710]") = Raise AttributeError
  /\ (forall fs user r rows,
        fs file_name = Some (r :: rows) ->
        csv_Activities r = CStr (qlit "{}") ->
        load_and_process_data py_repr fs file_name = ([], Crash KeyError)
        /\ dashboard py_repr fs user = ([st_set_page_config], Crash KeyError)).
Proof.
  assert (H0 : parse_activities py_repr (qlit "{}") = Raise KeyError)
    by (vm_compute; reflexivity).
  split; [exact H0|].
  split; [vm_compute; reflexivity|].
  split; [vm_compute; reflexivity|].
  intros fs user r rows Hfs Hr.
  assert (Hl : load_and_process_data py_repr fs file_name
               = ([], Crash KeyError)).
  { unfold load_and_process_data, read_csv. rewrite Hfs. simpl bind.
    rewrite normalize_first_raises with (e := KeyError); [reflexivity|].
    rewrite Hr. exact H0. }
  split; [exact Hl|].
  unfold dashboard. rewrite Hl. reflexivity.
Qed.

(** What [parse_activities] does, by the shape of the decoded payload. *)
Lemma parse_activities_cases (payload : str) :
  match loads (clean_quotes payload) with
  | Raise _ => parse_activities py_repr payload = Ok sentinel
  | Ok (JDict _) => parse_activities py_repr payload = Raise KeyError
  | Ok (JList []) | Ok (JStr []) | Ok JNull | Ok (JBool _) | Ok (JInt _)
  | Ok (JFloat _) => parse_activities py_repr payload = Ok sentinel
  | Ok (JList (JDict m :: _)) =>
      exists description nic,
        parse_activities py_repr payload = Ok (description, nic)
  | Ok (JList (_ :: _)) | Ok (JStr (_ :: _)) =>
      parse_activities py_repr payload = Raise AttributeError
  end.
Proof.
  unfold parse_activities, parse_body, loads.
  destruct (lex_from LIdle (clean_quotes payload)) as [ts|]; [|reflexivity].
  destruct (parse_from [] PValue ts) as [v|]; [|reflexivity].
  destruct v as [| | | | [|c s] | [|[] items] | ]; simpl; eauto.
Qed.


(** C8: when the path does not resolve, the loader reports it with
    [st.error] and returns the empty table with four empty lists; the
    script then stops, having rendered nothing but that report. *)
Theorem missing_file_stops_dashboard (fs : filesystem) :
  (forall file_path,
     fs file_path = None ->
     load_and_process_data py_repr fs file_path
     = ([st_error (not_found_message file_path)],
        Done {| df := []; industry_suggestions := []; name_suggestions := [];
                pincode_options := []; address_options := [] |}))
  /\ (forall user,
        fs file_name = None ->
        dashboard py_repr fs user
        = ([st_set_page_config; st_error (not_found_message file_name)], Stop)).
Proof.
  assert (Hl : forall file_path,
             fs file_path = None ->
             load_and_process_data py_repr fs file_path
             = ([st_error (not_found_message file_path)],
                Done {| df := []; industry_suggestions := [];
                        name_suggestions := []; pincode_options := [];
                        address_options := [] |})).
  { intros file_path H. unfold load_and_process_data, read_csv.
    rewrite H. reflexivity. }
  split; [exact Hl|].
  intros user H. unfold dashboard. rewrite (Hl _ H). reflexivity.
Qed.

(** C2, as the script does it: the state options are "All States" and the
    distinct states of the date-filtered table; the district options are
    "All Districts" and the distinct districts of the state-filtered
    table; the enterprise-name options are the distinct names of the
    district-filtered table; the pincode and the industry options are the
    lists the loader prepared, that is the distinct pincodes and the
    distinct industry labels of the whole normalized table. *)
Theorem widget_options_sources (fs : filesystem) (path : str)
  (out : list element) (loaded : Loaded) (first : Row) (rest : list Row)
  (user : Selections) :
  load_and_process_data py_repr fs path = (out, Done loaded) ->
  let min_date :=
    series_min (map RegistrationDate rest) (RegistrationDate first) in
  let max_date :=
    series_max (map RegistrationDate rest) (RegistrationDate first) in
  let date_range := widget (min_date, max_date) (user_date_range user) in
  let date_filtered :=
    date_filtered_df (df loaded) (fst date_range) (snd date_range) in
  let state_filtered :=
    state_filtered_df date_filtered (widget (lit "All States") (user_state user)) in
  let district_filtered :=
    fst (district_filtered_df state_filtered
           (widget (lit "All Districts") (user_district user))) in
  let page := fst (filter_controls loaded first rest user) in
  exists state_opts district_opts industry_opts name_opts pincode_opts,
    In (st_selectbox (lit "2. Select State") state_opts) page
    /\ In (st_selectbox (lit "3. Select District") district_opts) page
    /\ In (st_multiselect (lit "5. Filter by Industry (NIC 3-Digit / Activity)")
             industry_opts) page
    /\ In (st_multiselect (lit "6. Filter by Enterprise Name") name_opts) page
    /\ In (st_multiselect (lit "4. Filter by Pincode") pincode_opts) page
    /\ (forall s, In s state_opts <->
                  s = lit "All States" \/ In s (map State date_filtered))
    /\ (forall s, In s district_opts <->
                  s = lit "All Districts" \/ In s (map District state_filtered))
    /\ (forall s, In s name_opts <->
                  In s (map EnterpriseName district_filtered))
    /\ (forall s, In s pincode_opts <-> In s (map Pincode (df loaded)))
    /\ (forall s, In s industry_opts <->
                  In s (map Industry_Suggestion (df loaded))).
Proof.
  intros H min_date max_date date_range date_filtered state_filtered
    district_filtered page.
  destruct (@load_done _ _ _ _ H) as (_ & Ei & _ & Ep & _).
  exists (state_options date_filtered), (district_options state_filtered),
    (industry_suggestions loaded), (name_options district_filtered),
    (pincode_options loaded).
  assert (Hpage : page
    = [ st_title (128202%N :: lit " UDYAM Registrations Dashboard");
        st_markdown_total (List.length (df loaded));
        st_subheader (lit "Time");
        st_slider (lit "1. Registration Date Range") min_date max_date
          (min_date, max_date);
        st_subheader (lit "Geography");
        st_selectbox (lit "2. Select State") (state_options date_filtered);
        st_selectbox (lit "3. Select District")
          (district_options state_filtered);
        st_subheader (lit "Search Parameters");
        st_multiselect (lit "5. Filter by Industry (NIC 3-Digit / Activity)")
          (industry_suggestions loaded);
        st_multiselect (lit "6. Filter by Enterprise Name")
          (name_options district_filtered);
        st_multiselect (lit "4. Filter by Pincode") (pincode_options loaded) ]).
  { unfold page. rewrite filter_controls_eq. reflexivity. }
  rewrite Hpage.
  split; [do 5 right; left; reflexivity|].
  split; [do 6 right; left; reflexivity|].
  split; [do 8 right; left; reflexivity|].
  split; [do 9 right; left; reflexivity|].
  split; [do 10 right; left; reflexivity|].
  split; [|split; [|split; [|split]]].
  - intros s. unfold state_options. simpl In.
    rewrite In_sorted, In_unique. intuition.
  - intros s. unfold district_options. simpl In.
    rewrite In_sorted, In_unique. intuition.
  - intros s. unfold name_options. rewrite In_sorted, In_unique. tauto.
  - intros s. rewrite Ep, In_sorted, In_unique. tauto.
  - intros s. rewrite Ei, In_sorted, In_unique. tauto.
Qed.

(** On a non-empty table the script renders the filter controls and then
    presents the table [pipeline] gives for the widget values. *)
Lemma dashboard_presents_pipeline (fs : filesystem) (user : Selections)
  (out : list element) (loaded : Loaded) (first : Row) (rest : list Row) :
  load_and_process_data py_repr fs file_name = (out, Done loaded) ->
  df loaded = first :: rest ->
  let min_date :=
    series_min (map RegistrationDate rest) (RegistrationDate first) in
  let max_date :=
    series_max (map RegistrationDate rest) (RegistrationDate first) in
  let selected_state := widget (lit "All States") (user_state user) in
  let selected_district := widget (lit "All Districts") (user_district user) in
  let filtered_df :=
    pipeline (df loaded) (widget (min_date, max_date) (user_date_range user))
      selected_state selected_district
      (widget [] (user_pincode user)) (widget [] (user_industry user))
      (widget [] (user_enterprise_name user)) in
  let shown :=
    presentation filtered_df
      (negb (str_eqb selected_district (lit "All Districts"))) in
  dashboard py_repr fs user
  = (st_set_page_config
       :: out ++ fst (filter_controls loaded first rest user) ++ fst shown,
     snd shown).
Proof.
  intros H Hdf min_date max_date selected_state selected_district filtered_df
    shown.
  unfold dashboard. rewrite H. simpl ui_bind. rewrite Hdf.
  rewrite filter_controls_eq. cbv zeta.
  fold min_date max_date selected_state selected_district.
  set (state_filtered := state_filtered_df _ selected_state).
  assert (Hd : district_filtered_df state_filtered selected_district
               = (fst (district_filtered_df state_filtered selected_district),
                  negb (str_eqb selected_district (lit "All Districts")))).
  { unfold district_filtered_df.
    destruct (str_eqb selected_district (lit "All Districts")); reflexivity. }
  assert (Hs : presentation
                 (final_filter
                    (fst (district_filtered_df state_filtered selected_district))
                    (widget [] (user_pincode user))
                    (widget [] (user_industry user))
                    (widget [] (user_enterprise_name user)))
                 (snd (district_filtered_df state_filtered selected_district))
               = shown).
  { rewrite Hd at 2. unfold shown, filtered_df, pipeline, state_filtered.
    rewrite Hdf. reflexivity. }
  simpl ui_bind. rewrite Hs. destruct shown as [els r]. reflexivity.
Qed.

End LoaderProperties.

(** ** Closed examples *)

Lemma sample_load :
  load_and_process_data any_repr (file_with sample_rows) file_name
  = ([], Done sample_loaded).
Proof. vm_compute. reflexivity. Qed.

(** C2, refuted as stated: with Maharashtra chosen, the table that reaches
    the pincode and industry stages holds only the Pune bakery, yet the
    pincode widget still offers Mysuru's pincode and the industry widget
    the label of the Karnataka row. *)
Lemma stale_pincode_and_industry_options :
  load_and_process_data any_repr (file_with sample_rows) file_name
  = ([], Done sample_loaded)
  /\ snd (filter_controls sample_loaded bakery_row [unspecified_row]
            maharashtra_chosen)
     = Done ([bakery_row], false, [], [], [])
  /\ In (st_multiselect (lit "4. Filter by Pincode")
           [lit "411001"; lit "570001"])
        (fst (filter_controls sample_loaded bakery_row [unspecified_row]
                maharashtra_chosen))
  /\ ~ In (lit "570001") (map Pincode [bakery_row])
  /\ In (st_multiselect (lit "5. Filter by Industry (NIC 3-Digit / Activity)")
           [lit "000 - Unspecified Activity"; lit "107 - Bakery"])
        (fst (filter_controls sample_loaded bakery_row [unspecified_row]
                maharashtra_chosen))
  /\ ~ In (lit "000 - Unspecified Activity")
          (map Industry_Suggestion [bakery_row]).
Proof.
  split; [exact sample_load|].
  split; [vm_compute; reflexivity|].
  split; [vm_compute; do 10 right; left; reflexivity|].
  split; [vm_compute; intros [H|[]]; discriminate H|].
  split; [vm_compute; do 8 right; left; reflexivity|].
  vm_compute; intros [H|[]]; discriminate H.
Qed.

Lemma widget_options_sources_witness :
  exists pincode_opts,
    In (st_multiselect (lit "4. Filter by Pincode") pincode_opts)
       (fst (filter_controls sample_loaded bakery_row [unspecified_row]
               maharashtra_chosen))
    /\ forall s, In s pincode_opts <-> In s (map Pincode (df sample_loaded)).
Proof.
  destruct (@widget_options_sources any_repr (file_with sample_rows) file_name
              [] sample_loaded bakery_row [unspecified_row] maharashtra_chosen
              sample_load)
    as (so & d_o & io & no & po & _ & _ & _ & _ & Hp & _ & _ & _ & Hpm & _).
  exists po. split; [exact Hp|exact Hpm].
Defined.

(** C4, refuted as stated: a first activity whose NIC5DigitId is the empty
    string (the payload in its doubled-quote form) gives a row whose NIC_Section "00" and NIC3DigitId "000" are
    not prefixes of its (empty) NIC5DigitId. *)
Lemma empty_code_counterexample :
  exists r,
    normalize any_repr
      [csv_row (Some (mkdate 2023 1 15))
         (CStr (qlit "'[{''Description'':''Bakery'',''NIC5DigitId'':''''}]'"))
         "Maharashtra" "Pune" "411001" "Asha Bakers"]
    = Ok [r]
    /\ NIC5DigitId r = []
    /\ NIC_Section r = lit "00"
    /\ NIC3DigitId r = lit "000"
    /\ startswith (NIC5DigitId r) (NIC_Section r) = false
    /\ startswith (NIC5DigitId r) (NIC3DigitId r) = false.
Proof. eexists. vm_compute. repeat split; reflexivity. Qed.

Lemma section_codes_are_prefixes_witness :
  NIC_Section bakery_row = slice_to 2 (NIC5DigitId bakery_row)
  /\ NIC3DigitId bakery_row = slice_to 3 (NIC5DigitId bakery_row)
  /\ startswith (NIC5DigitId bakery_row) (NIC_Section bakery_row) = true
  /\ startswith (NIC5DigitId bakery_row) (NIC3DigitId bakery_row) = true.
Proof.
  refine (proj1 (@section_codes_are_prefixes any_repr (file_with sample_rows)
                   file_name [] sample_loaded bakery_row sample_load _) _).
  - left; reflexivity.
  - discriminate.
Defined.

(** C5, refuted as stated: the loader takes the code as the payload gives
    it, so a first activity with NIC5DigitId "1" gives a row whose three
    codes are all "1", none of the width the claim states. *)
Lemma short_code_counterexample :
  exists r,
    normalize any_repr
      [csv_row (Some (mkdate 2023 1 15))
         (CStr (qlit "[{'Description':'Bakery','NIC5DigitId':'1'}]"))
         "Maharashtra" "Pune" "411001" "Asha Bakers"]
    = Ok [r]
    /\ NIC5DigitId r = lit "1"
    /\ NIC_Section r = lit "1"
    /\ NIC3DigitId r = lit "1"
    /\ is_digits 5 (NIC5DigitId r) = false
    /\ is_digits 2 (NIC_Section r) = false
    /\ is_digits 3 (NIC3DigitId r) = false.
Proof. eexists. vm_compute. repeat split; reflexivity. Qed.

Lemma codes_follow_the_payload_witness :
  is_digits 5 (NIC5DigitId bakery_row) = true
  /\ is_digits 2 (NIC_Section bakery_row) = true
  /\ is_digits 3 (NIC3DigitId bakery_row) = true.
Proof.
  destruct (@codes_follow_the_payload any_repr (file_with sample_rows)
              file_name [] sample_loaded bakery_row sample_load
              (or_introl eq_refl))
    as (_ & _ & H & _).
  split; [reflexivity|]. apply H. reflexivity.
Defined.

(** C6, refuted as stated: a payload whose code starts with a space gives
    a row with NIC3DigitId " 10" and the label " 10 - Bakery".  The text
    of that label before the first " - " is " 10", the row's own code, so
    the claim keeps the row; the script strips the text to "10" and drops
    it. *)
Lemma padded_label_counterexample :
  exists r,
    fst (load_and_process_data any_repr
           (file_with
              [csv_row (Some (mkdate 2023 1 15))
                 (CStr (qlit "[{'Description':'Bakery','NIC5DigitId':' 1071'}]"))
                 "Maharashtra" "Pune" "411001" "Asha Bakers"])
           file_name) = []
    /\ snd (load_and_process_data any_repr
              (file_with
                 [csv_row (Some (mkdate 2023 1 15))
                    (CStr (qlit "[{'Description':'Bakery','NIC5DigitId':' 1071'}]"))
                    "Maharashtra" "Pune" "411001" "Asha Bakers"])
              file_name)
       = Done {| df := [r];
                 industry_suggestions := [lit " 10 - Bakery"];
                 name_suggestions := [lit "Asha Bakers"];
                 pincode_options := [lit "411001"];
                 address_options := [[]] |}
    /\ NIC3DigitId r = lit " 10"
    /\ before_first (lit " - ") (lit " 10 - Bakery") = lit " 10"
    /\ filter (fun r' =>
                 existsb (str_eqb (NIC3DigitId r'))
                   (map (before_first (lit " - ")) [lit " 10 - Bakery"])) [r]
       = [r]
    /\ selected_nic3_codes [lit " 10 - Bakery"] = [lit "10"]
    /\ industry_stage [r] [lit " 10 - Bakery"] = [].
Proof. eexists. vm_compute. repeat split; reflexivity. Qed.

Lemma industry_stage_keeps_stripped_codes_witness :
  industry_stage [bakery_row; unspecified_row] [lit "107 - Bakery"]
  = [bakery_row].
Proof.
  rewrite (proj1 (@industry_stage_keeps_stripped_codes
                    [bakery_row; unspecified_row] [lit "107 - Bakery"]
                    ltac:(discriminate))).
  reflexivity.
Defined.

Lemma date_range_stage_inclusive_witness :
  ~ In unspecified_row
      (date_filtered_df [bakery_row; unspecified_row]
         (mkdate 2023 1 1) (mkdate 2023 1 31))
  /\ In bakery_row
       (date_filtered_df [bakery_row; unspecified_row]
          (mkdate 2023 1 1) (mkdate 2023 1 31)).
Proof.
  destruct date_range_stage_inclusive as (_ & _ & _ & Hout & Hin).
  split.
  - apply Hout. reflexivity.
  - apply Hin; [reflexivity|left; reflexivity].
Defined.

Lemma parse_activities_lets_errors_escape_witness :
  dashboard any_repr
    (file_with
       [csv_row (Some (mkdate 2023 1 15)) (CStr (qlit "{}"))
          "Maharashtra" "Pune" "411001" "Asha Bakers"])
    untouched
  = ([st_set_page_config], Crash KeyError).
Proof.
  destruct (parse_activities_lets_errors_escape any_repr) as (_ & _ & _ & H).
  apply (H _ untouched
           (csv_row (Some (mkdate 2023 1 15)) (CStr (qlit "{}"))
              "Maharashtra" "Pune" "411001" "Asha Bakers") []);
    reflexivity.
Defined.


Lemma missing_file_stops_dashboard_witness :
  dashboard any_repr (fun _ => None) untouched
  = ([st_set_page_config; st_error (not_found_message file_name)], Stop).
Proof.
  apply (proj2 (missing_file_stops_dashboard any_repr (fun _ => None))).
  reflexivity.
Defined.

(** The value of line 259 on four columns: the most frequent description
    wins though it is neither the first in the rows nor the least; of two
    that occur as often the least wins though it comes later in the rows;
    nulls are not counted; a column of nulls alone raises. *)
Lemma top_description_examples :
  top_activity_desc_of
    [Some (lit "Bakery"); Some (lit "Retail"); Some (lit "Retail")]
  = Ok (lit "Retail")
  /\ top_activity_desc_of [Some (lit "Retail"); Some (lit "Bakery")]
     = Ok (lit "Bakery")
  /\ top_activity_desc_of [None; Some (lit "Retail"); None]
     = Ok (lit "Retail")
  /\ top_activity_desc_of [None; None] = Raise IndexError
  /\ top_activity_desc [bakery_row; unspecified_row; unspecified_row]
     = Ok (lit "Unspecified Activity").
Proof. vm_compute. repeat split. Qed.

Lemma top_description_most_frequent_witness :
  (exists top,
     top_activity_desc_of
       [Some (lit "Bakery"); Some (lit "Retail"); Some (lit "Retail")]
     = Ok top
     /\ In (Some top)
          [Some (lit "Bakery"); Some (lit "Retail"); Some (lit "Retail")]
     /\ (forall x,
           occurrences (Some x)
             [Some (lit "Bakery"); Some (lit "Retail"); Some (lit "Retail")]
           <= occurrences (Some top)
                [Some (lit "Bakery"); Some (lit "Retail"); Some (lit "Retail")])
     /\ (forall x,
           occurrences (Some x)
             [Some (lit "Bakery"); Some (lit "Retail"); Some (lit "Retail")]
           = occurrences (Some top)
               [Some (lit "Bakery"); Some (lit "Retail"); Some (lit "Retail")]
           -> str_leb top x = true))
  /\ top_activity_desc_of [None; None] = Raise IndexError.
Proof.
  split.
  - apply (proj1 (@top_description_most_frequent
                    [Some (lit "Bakery"); Some (lit "Retail");
                     Some (lit "Retail")]
                    ltac:(discriminate))).
    exists (lit "Bakery"). left. reflexivity.
  - apply (proj1 (proj2 (@top_description_most_frequent [None; None]
                           ltac:(discriminate)))).
    intros x [H|[H|[]]]; discriminate H.
Defined.

(** * Further properties of the script *)

(** ** The filter stages as filters *)

Lemma filter_twice {A} (f g : A -> bool) (l : list A) :
  filter f (filter g l) = filter (fun x => g x && f x) l.
Proof.
  induction l as [|x l IH]; simpl; auto.
  destruct (g x); simpl; [destruct (f x)|]; congruence.
Qed.

Lemma state_stage_filter (t : list Row) (s : str) :
  state_filtered_df t s
  = filter (fun r => str_eqb s (lit "All States") || str_eqb (State r) s) t.
Proof.
  unfold state_filtered_df. destruct (str_eqb s (lit "All States")).
  - symmetry. apply filter_all. reflexivity.
  - apply select_eq_mask.
Qed.

Lemma district_stage_filter (t : list Row) (s : str) :
  fst (district_filtered_df t s)
  = filter (fun r => str_eqb s (lit "All Districts") || str_eqb (District r) s) t.
Proof.
  unfold district_filtered_df. destruct (str_eqb s (lit "All Districts")); simpl.
  - symmetry. apply filter_all. reflexivity.
  - apply select_eq_mask.
Qed.

Lemma pincode_stage_filter (t : list Row) (sel : list str) :
  pincode_stage t sel
  = filter (fun r => match sel with
                     | [] => true
                     | _ :: _ => existsb (str_eqb (Pincode r)) sel
                     end) t.
Proof.
  destruct sel; simpl.
  - symmetry. apply filter_all. reflexivity.
  - apply select_isin.
Qed.

Lemma industry_stage_filter (t : list Row) (sel : list str) :
  industry_stage t sel
  = filter (fun r => match sel with
                     | [] => true
                     | _ :: _ =>
                         existsb (str_eqb (NIC3DigitId r)) (selected_nic3_codes sel)
                     end) t.
Proof.
  destruct sel; simpl.
  - symmetry. apply filter_all. reflexivity.
  - apply select_isin.
Qed.

Lemma name_stage_filter (t : list Row) (sel : list str) :
  name_stage t sel
  = filter (fun r => match sel with
                     | [] => true
                     | _ :: _ => existsb (str_eqb (EnterpriseName r)) sel
                     end) t.
Proof.
  destruct sel; simpl.
  - symmetry. apply filter_all. reflexivity.
  - apply select_isin.
Qed.

(** X1: the six stages together keep, in their original order, exactly
    the rows that pass every stage's test. *)
Theorem pipeline_is_one_filter (df : list Row) (range : date * date)
  (ss sd : str) (sp si sn : list str) :
  pipeline df range ss sd sp si sn
  = filter (row_passes range ss sd sp si sn) df.
Proof.
  unfold pipeline, final_filter.
  rewrite name_stage_filter, industry_stage_filter, pincode_stage_filter,
    district_stage_filter, state_stage_filter, date_filtered_df_filter.
  rewrite !filter_twice. apply filter_ext. intros r.
  unfold row_passes. rewrite !andb_assoc. reflexivity.
Qed.

(** X2: no stage adds or duplicates rows: the output of each stage, and of
    the whole pipeline, has at most as many rows as its input and every
    row of it is a row of the input. *)
Theorem stages_only_narrow (t : list Row) :
  (forall s e,
     List.length (date_filtered_df t s e) <= List.length t
     /\ incl (date_filtered_df t s e) t)
  /\ (forall s,
        List.length (state_filtered_df t s) <= List.length t
        /\ incl (state_filtered_df t s) t)
  /\ (forall s,
        List.length (fst (district_filtered_df t s)) <= List.length t
        /\ incl (fst (district_filtered_df t s)) t)
  /\ (forall sel,
        List.length (pincode_stage t sel) <= List.length t
        /\ incl (pincode_stage t sel) t)
  /\ (forall sel,
        List.length (industry_stage t sel) <= List.length t
        /\ incl (industry_stage t sel) t)
  /\ (forall sel,
        List.length (name_stage t sel) <= List.length t
        /\ incl (name_stage t sel) t)
  /\ (forall range ss sd sp si sn,
        List.length (pipeline t range ss sd sp si sn) <= List.length t
        /\ incl (pipeline t range ss sd sp si sn) t).
Proof.
  assert (H : forall f : Row -> bool,
             List.length (filter f t) <= List.length t /\ incl (filter f t) t).
  { intros f. split; [apply filter_length_le|apply incl_filter]. }
  assert (Hp : forall range ss sd sp si sn,
             exists f, pipeline t range ss sd sp si sn = filter f t).
  { intros. unfold pipeline, final_filter.
    rewrite name_stage_filter, industry_stage_filter, pincode_stage_filter,
      district_stage_filter, state_stage_filter, date_filtered_df_filter.
    rewrite !filter_twice. eexists. reflexivity. }
  split; [intros; rewrite date_filtered_df_filter; apply H|].
  split; [intros; rewrite state_stage_filter; apply H|].
  split; [intros; rewrite district_stage_filter; apply H|].
  split; [intros; rewrite pincode_stage_filter; apply H|].
  split; [intros; rewrite industry_stage_filter; apply H|].
  split; [intros; rewrite name_stage_filter; apply H|].
  intros. destruct (Hp range ss sd sp si sn) as [f ->]. apply H.
Qed.

Lemma filter_swap {A} (f g : A -> bool) (l : list A) :
  filter f (filter g l) = filter g (filter f l).
Proof.
  rewrite !filter_twice. apply filter_ext. intros x. apply andb_comm.
Qed.

Lemma filter_again {A} (f : A -> bool) (l : list A) :
  filter f (filter f l) = filter f l.
Proof.
  rewrite filter_twice. apply filter_ext. intros x. destruct (f x); reflexivity.
Qed.

Lemma filter_three {A} (f g h : A -> bool) (l : list A) :
  filter h (filter g (filter f l)) = filter f (filter h (filter g l))
  /\ filter h (filter g (filter f l)) = filter g (filter f (filter h l)).
Proof.
  rewrite !filter_twice. split; apply filter_ext; intros x;
    destruct (f x), (g x), (h x); reflexivity.
Qed.

(** X3: the order in which the stages are applied does not change the
    rows kept: the three multi-choice stages can be applied in any order,
    the state and district stages can be swapped, and applying a
    multi-choice stage a second time with the same selection changes
    nothing. *)
Theorem stages_commute (t : list Row) (ss sd : str) (sp si sn : list str) :
  final_filter t sp si sn
  = pincode_stage (name_stage (industry_stage t si) sn) sp
  /\ final_filter t sp si sn
     = industry_stage (pincode_stage (name_stage t sn) sp) si
  /\ fst (district_filtered_df (state_filtered_df t ss) sd)
     = state_filtered_df (fst (district_filtered_df t sd)) ss
  /\ pincode_stage (pincode_stage t sp) sp = pincode_stage t sp
  /\ industry_stage (industry_stage t si) si = industry_stage t si
  /\ name_stage (name_stage t sn) sn = name_stage t sn.
Proof.
  unfold final_filter.
  rewrite !name_stage_filter, !industry_stage_filter, !pincode_stage_filter,
    !district_stage_filter, !state_stage_filter.
  split; [|split; [|split; [|split; [|split]]]].
  - apply filter_three.
  - apply filter_three.
  - apply filter_swap.
  - apply filter_again.
  - apply filter_again.
  - apply filter_again.
Qed.

(** ** What is presented *)

Lemma top_activity_desc_ok (first : Row) (rest : list Row) :
  exists top, top_activity_desc (first :: rest) = Ok top.
Proof.
  unfold top_activity_desc. simpl map. cbv iota.
  destruct (mode (ActivityDescription first :: map ActivityDescription rest))
    as [|top others] eqn:E.
  - exfalso. refine (@mode_nonempty _ _ E). discriminate.
  - exists top. reflexivity.
Qed.

Lemma presentation_nonempty (first : Row) (rest : list Row) (flag : bool)
  (top : str) :
  top_activity_desc (first :: rest) = Ok top ->
  presentation (first :: rest) flag
  = ([ st_markdown_rule;
       st_header (lit "Key Performance Indicators (KPIs) - Filtered Results");
       st_metric (lit "Total Registrations")
         (MCount (List.length (first :: rest)));
       st_metric (lit "Top Industry Description") (MText top);
       st_metric (lit "Average Daily Registrations") MFloat;
       st_markdown_rule;
       st_header (lit "Trend and Geographic Distribution");
       st_subheader (lit "Monthly Registration Trend");
       st_plotly_chart (lit "Monthly Enterprise Registrations");
       st_header (lit "Industry Categorization");
       st_subheader (lit "Top 10 NIC Sections (2-Digit Description)");
       st_plotly_chart (lit "Top 10 Distribution by NIC Section");
       st_subheader (lit "Top Specific Business Activities (Top 15)");
       st_plotly_chart (lit "Ranking of Top 15 Enterprise Activities") ]
     ++ (if flag then []
         else [ st_subheader (lit "Registrations by District");
                st_plotly_chart (lit "Total Registrations per District") ])
     ++ [ st_markdown_rule;
          st_subheader (lit "Filtered Enterprise Data Preview");
          st_dataframe display_cols (first :: rest) ],
     Done tt).
Proof.
  intros H. unfold presentation. rewrite H. destruct flag; reflexivity.
Qed.

(** X4: an empty filtered table gives the rule and the "no data" warning,
    nothing else, and the run ends there; a non-empty one never gives the
    warning, and its page starts with the rule, the KPI header and the
    row count as "Total Registrations". *)
Theorem presentation_warns_when_empty (t : list Row) (flag : bool) :
  (t = [] ->
   presentation t flag
   = ([ st_markdown_rule;
        st_warning (lit "No data matches your current filter selections. Please adjust the filters above.") ],
      Done tt))
  /\ (t <> [] ->
      (forall msg, ~ In (st_warning msg) (fst (presentation t flag)))
      /\ exists rest,
           fst (presentation t flag)
           = st_markdown_rule
             :: st_header (lit "Key Performance Indicators (KPIs) - Filtered Results")
             :: st_metric (lit "Total Registrations") (MCount (List.length t))
             :: rest).
Proof.
  destruct t as [|first rest].
  - split; [reflexivity|congruence].
  - destruct (top_activity_desc_ok first rest) as [top Htop].
    rewrite (@presentation_nonempty _ _ flag _ Htop).
    split; [discriminate|]. intros _. split.
    + intros msg H. destruct flag; simpl in H;
        repeat (destruct H as [H|H]; [discriminate H|]); exact H.
    + eexists. cbn [fst app]. reflexivity.
Qed.

(** X5: the "Total Registrations per District" chart is drawn only when
    the filtered table is non-empty and the district stage was left on
    "All Districts". *)
Theorem district_chart_needs_all_districts (t : list Row)
  (state_filtered : list Row) (selected_district : str) :
  let flag := snd (district_filtered_df state_filtered selected_district) in
  In (st_plotly_chart (lit "Total Registrations per District"))
     (fst (presentation t flag))
  -> t <> [] /\ selected_district = lit "All Districts".
Proof.
  intros flag.
  assert (Hf : flag = negb (str_eqb selected_district (lit "All Districts"))).
  { unfold flag, district_filtered_df.
    destruct (str_eqb selected_district (lit "All Districts")); reflexivity. }
  rewrite <- str_eqb_eq. rewrite Hf. clear Hf flag.
  destruct t as [|first rest].
  - simpl. intros [H|[H|[]]]; discriminate H.
  - destruct (top_activity_desc_ok first rest) as [top Htop].
    rewrite (@presentation_nonempty _ _ _ _ Htop).
    destruct (str_eqb selected_district (lit "All Districts")); simpl.
    + intros _. split; [discriminate|reflexivity].
    + intros H. repeat (destruct H as [H|H]; [discriminate H|]). destruct H.
Qed.

(** X7: with the date range at the table's least and greatest dates,
    "All States", "All Districts" and nothing picked in the three
    multi-choice stages (what the widgets hold before they are touched),
    the six stages keep every row of the table, in order. *)
Theorem default_selections_keep_every_row (first : Row) (rest : list Row) :
  pipeline (first :: rest)
    (series_min (map RegistrationDate rest) (RegistrationDate first),
     series_max (map RegistrationDate rest) (RegistrationDate first))
    (lit "All States") (lit "All Districts") [] [] []
  = first :: rest.
Proof.
  unfold pipeline, final_filter. simpl name_stage.
  unfold district_filtered_df, state_filtered_df. rewrite !str_eqb_refl.
  simpl fst. rewrite date_filtered_df_filter. apply filter_all.
  intros r Hr. apply (in_map RegistrationDate) in Hr.
  change (In (RegistrationDate r)
            (RegistrationDate first :: map RegistrationDate rest)) in Hr.
  simpl fst. simpl snd.
  rewrite (@series_min_least (map RegistrationDate rest)
             (RegistrationDate first) (RegistrationDate r) Hr).
  rewrite (@series_max_greatest (map RegistrationDate rest)
             (RegistrationDate first) (RegistrationDate r) Hr).
  reflexivity.
Qed.

(** ** More on the loader and the script *)

Section ScriptProperties.

Variable py_repr : json -> str.

Lemma apply_Forall2 {A B} (f : A -> result B) (l : list A) (ys : list B) :
  apply f l = Ok ys -> Forall2 (fun x y => f x = Ok y) l ys.
Proof.
  revert ys; induction l as [|x l IH]; simpl; intros ys H.
  - injection H as <-. constructor.
  - destruct (f x) as [b|e] eqn:Ef; simpl in H; [|discriminate].
    destruct (apply f l) as [bs|e] eqn:El; simpl in H; [|discriminate].
    injection H as <-. constructor; auto.
Qed.

Lemma apply_raises {A B} (f : A -> result B) (l : list A) (x : A) (e : exn) :
  In x l -> f x = Raise e -> exists e', apply f l = Raise e'.
Proof.
  induction l as [|y l IH]; simpl; [tauto|]. intros [->|H] Hx.
  - rewrite Hx. simpl. eauto.
  - destruct (f y) as [b|e1]; simpl; [|eauto].
    destruct (IH H Hx) as [e' ->]. simpl. eauto.
Qed.

Lemma apply_raise_from {A B} (f : A -> result B) (l : list A) (e : exn) :
  apply f l = Raise e -> exists x, In x l /\ f x = Raise e.
Proof.
  induction l as [|y l IH]; simpl; [discriminate|].
  destruct (f y) as [b|e1] eqn:Ef; simpl.
  - destruct (apply f l) as [bs|e2]; simpl; [discriminate|].
    intros H. injection H as ->.
    destruct (IH eq_refl) as (x & Hx & E). eauto.
  - intros H. injection H as ->. eauto.
Qed.

(** The exceptions [parse_activities] lets through. *)
Lemma parse_activities_raise (payload : str) (e : exn) :
  parse_activities py_repr payload = Raise e ->
  e = KeyError \/ e = AttributeError.
Proof.
  pose proof (@parse_activities_cases py_repr payload) as H.
  destruct (loads (clean_quotes payload)) as [v|e0].
  - destruct v as [| | | | [|c s] | [|[] items] | ];
      try (rewrite H; intros E; injection E as <-; auto);
      try (rewrite H; discriminate).
    destruct H as (d & n & ->). discriminate.
  - rewrite H. discriminate.
Qed.

Lemma build_row_raise x (e : exn) : build_row x = Raise e -> e = TypeError.
Proof.
  destruct x as [[d r] [description nic5]]. unfold build_row.
  destruct description; intros H; try discriminate H;
    injection H as <-; reflexivity.
Qed.

Lemma normalize_raise (rows : list CsvRow) (e : exn) :
  normalize py_repr rows = Raise e -> e <> FileNotFoundError.
Proof.
  unfold normalize. destruct (apply _ rows) as [parsed|e1] eqn:Ep; simpl.
  - intros H. apply apply_raise_from in H. destruct H as (x & _ & H).
    apply build_row_raise in H. subst. discriminate.
  - intros H. injection H as ->. apply apply_raise_from in Ep.
    destruct Ep as (x & _ & H).
    destruct (parse_activities py_repr (cell_str (csv_Activities x)))
      as [p|e2] eqn:E; simpl in H; [discriminate|].
    injection H as ->. apply parse_activities_raise in E.
    destruct E; subst; discriminate.
Qed.

(** A completed load of a file that exists is a completed [normalize]. *)
Lemma load_of_file (fs : filesystem) (path : str) (rows : list CsvRow) out
  (loaded : Loaded) :
  fs path = Some rows ->
  load_and_process_data py_repr fs path = (out, Done loaded) ->
  out = [] /\ normalize py_repr rows = Ok (df loaded).
Proof.
  unfold load_and_process_data, read_csv. intros ->. simpl bind.
  destruct (normalize py_repr rows) as [table|e] eqn:En.
  - intros H. injection H as <- <-. auto.
  - pose proof (@normalize_raise _ _ En) as Hne.
    destruct e; intros H; try discriminate H. congruence.
Qed.

Lemma Forall2_compose {A B C} (P : A -> B -> Prop) (Q : B -> C -> Prop)
  (R : A -> C -> Prop) (l1 : list A) (l2 : list B) (l3 : list C) :
  (forall a b c, P a b -> Q b c -> R a c) ->
  Forall2 P l1 l2 -> Forall2 Q l2 l3 -> Forall2 R l1 l3.
Proof.
  intros HR H1. revert l3. induction H1; intros l3 H2; inversion H2; subst;
    constructor; eauto.
Qed.

Lemma dropna_Forall2 (rows : list CsvRow)
  (parsed : list (CsvRow * (json * str))) :
  Forall2 (fun x y => fst y = x) rows parsed ->
  Forall2 (fun x z => snd (fst z) = x /\ csv_RegistrationDate x = Some (fst (fst z)))
    (filter has_date rows) (dropna parsed).
Proof.
  induction 1 as [|x [x' p] rows parsed Hx H IH]; simpl; [constructor|].
  simpl in Hx. subst x'. unfold has_date.
  destruct (csv_RegistrationDate x) as [d|] eqn:E; [|exact IH].
  constructor; [simpl; auto|exact IH].
Qed.

Lemma build_row_carries z (r : Row) :
  build_row z = Ok r ->
  csv_RegistrationDate (snd (fst z)) = Some (fst (fst z)) ->
  carries (snd (fst z)) r.
Proof.
  destruct z as [[d x] [description nic5]]. unfold build_row.
  destruct description; try discriminate. intros H. injection H as <-.
  simpl. intros Hd. unfold carries. simpl. auto 10.
Qed.

Lemma normalize_carries (rows : list CsvRow) (table : list Row) :
  normalize py_repr rows = Ok table ->
  Forall2 carries (filter has_date rows) table.
Proof.
  unfold normalize. destruct (apply _ rows) as [parsed|e] eqn:Ep; simpl;
    [|discriminate].
  intros Hb. apply apply_Forall2 in Ep. apply apply_Forall2 in Hb.
  assert (H1 : Forall2 (fun x y => fst y = x) rows parsed).
  { eapply Forall2_impl; [|exact Ep]. intros x [x' p]. simpl.
    destruct (parse_activities py_repr (cell_str (csv_Activities x)));
      simpl; intros H; [injection H as <- _; reflexivity|discriminate]. }
  apply dropna_Forall2 in H1.
  eapply Forall2_compose; [|exact H1|exact Hb].
  intros x z r [<- Hd] Hz. apply build_row_carries; assumption.
Qed.

(** X8: the normalized table holds, in file order, one row for each CSV
    row whose registration date was parsed and none for the others; each
    takes over that date, the state, the district and the pincode as they
    are, and the enterprise name and address with a missing value turned
    into the empty string. *)
Theorem table_rows_are_the_dated_rows (fs : filesystem) (path : str)
  (rows : list CsvRow) (out : list element) (loaded : Loaded) :
  fs path = Some rows ->
  load_and_process_data py_repr fs path = (out, Done loaded) ->
  Forall2 carries (filter has_date rows) (df loaded)
  /\ List.length (df loaded) = List.length (filter has_date rows).
Proof.
  intros Hfs H. destruct (@load_of_file _ _ _ _ _ Hfs H) as [_ Hn].
  pose proof (@normalize_carries _ _ Hn) as Hc.
  split; [exact Hc|]. symmetry. eapply Forall2_length, Hc.
Qed.

(** X9: the payloads are parsed before the rows without a date are
    dropped.  So a completed load means that every payload of the file
    was parsed without an uncaught exception, and a payload that raises
    one ends the load even when its row has no date and would have been
    dropped. *)
Theorem every_payload_is_parsed (fs : filesystem) (path : str)
  (rows : list CsvRow) :
  fs path = Some rows ->
  (forall out loaded x,
     load_and_process_data py_repr fs path = (out, Done loaded) ->
     In x rows ->
     exists p, parse_activities py_repr (cell_str (csv_Activities x)) = Ok p)
  /\ (forall x e,
        In x rows ->
        parse_activities py_repr (cell_str (csv_Activities x)) = Raise e ->
        exists e', load_and_process_data py_repr fs path = ([], Crash e')).
Proof.
  intros Hfs.
  assert (Hr : forall x e,
             In x rows ->
             parse_activities py_repr (cell_str (csv_Activities x)) = Raise e ->
             exists e', normalize py_repr rows = Raise e').
  { intros x e Hx He. unfold normalize.
    destruct (@apply_raises _ _
                (fun r => p <- parse_activities py_repr
                                 (cell_str (csv_Activities r)) ;; Ok (r, p))
                rows x e Hx) as [e' E].
    - rewrite He. reflexivity.
    - rewrite E. simpl. eauto. }
  split.
  - intros out loaded x H Hx. destruct (@load_of_file _ _ _ _ _ Hfs H) as [_ Hn].
    destruct (parse_activities py_repr (cell_str (csv_Activities x)))
      as [p|e] eqn:E; [eauto|].
    destruct (Hr x e Hx E) as [e' He']. congruence.
  - intros x e Hx He. destruct (Hr x e Hx He) as [e' He'].
    exists e'. unfold load_and_process_data, read_csv. rewrite Hfs.
    simpl bind. rewrite He'. pose proof (@normalize_raise _ _ He') as Hne.
    destruct e'; congruence.
Qed.

(** X10: every list of options is in ascending order and free of
    duplicates: the four lists the loader prepares, the enterprise-name
    options, and the state and district options after their leading
    "All States" / "All Districts" entry. *)
Theorem option_lists_sorted_distinct :
  (forall fs path out loaded,
     load_and_process_data py_repr fs path = (out, Done loaded) ->
     (StronglySorted str_le (industry_suggestions loaded)
      /\ NoDup (industry_suggestions loaded))
     /\ (StronglySorted str_le (name_suggestions loaded)
         /\ NoDup (name_suggestions loaded))
     /\ (StronglySorted str_le (pincode_options loaded)
         /\ NoDup (pincode_options loaded))
     /\ (StronglySorted str_le (address_options loaded)
         /\ NoDup (address_options loaded)))
  /\ (forall t,
        exists states districts,
          state_options t = lit "All States" :: states
          /\ district_options t = lit "All Districts" :: districts
          /\ StronglySorted str_le states /\ NoDup states
          /\ StronglySorted str_le districts /\ NoDup districts
          /\ StronglySorted str_le (name_options t) /\ NoDup (name_options t)).
Proof.
  assert (H : forall l, StronglySorted str_le (sorted (unique l))
                        /\ NoDup (sorted (unique l))).
  { intros l. split; [apply sorted_ok|apply NoDup_sorted, NoDup_unique]. }
  split.
  - intros fs path out loaded Hl.
    destruct (@load_done py_repr _ _ _ _ Hl) as (_ & -> & -> & -> & ->).
    repeat split; apply H.
  - intros t. eexists _, _. split; [reflexivity|]. split; [reflexivity|].
    unfold name_options. repeat split; apply H.
Qed.






Lemma loads_raise (s : str) (e : exn) : loads s = Raise e -> e = JSONDecodeError.
Proof.
  unfold loads. destruct (lex_from LIdle s) as [ts|];
    [destruct (parse_from [] PValue ts)|]; intros H; try discriminate H;
    injection H as <-; reflexivity.
Qed.

Lemma startswith_In (s old : str) (c : char) :
  startswith s old = true -> In c old -> In c s.
Proof.
  intros H Hc. apply startswith_app in H. destruct H as [rest ->].
  apply in_or_app. left. exact Hc.
Qed.

Lemma replace_absent (s old new : str) (c : char) :
  In c old -> ~ In c s -> replace s old new = s.
Proof.
  intros Hc. unfold replace. induction s as [|x s IH]; [reflexivity|].
  intros Hn. simpl replace_from.
  destruct (startswith (x :: s) old) eqn:E.
  - exfalso. apply Hn. eapply startswith_In; eauto.
  - f_equal. apply IH. intros H. apply Hn. right. exact H.
Qed.

(** X12: the quote repair only ever touches double quotes: a payload that
    contains none is handed to [json.loads] as it is. *)
Theorem clean_quotes_without_quotes (payload : str) :
  ~ In dquote payload -> clean_quotes payload = payload.
Proof.
  intros H. unfold clean_quotes.
  rewrite (@replace_absent payload (qlit "''") (qlit "'") dquote);
    [|left; reflexivity|exact H].
  rewrite (@replace_absent payload (qlit "'[") (lit "[") dquote);
    [|left; reflexivity|exact H].
  apply (@replace_absent payload (qlit "]'") (lit "]") dquote);
    [right; left; reflexivity|exact H].
Qed.

(** X13: what [parse_activities] does, by what [json.loads] does with the
    repaired payload.  When the decoder raises, the sentinel pair is
    returned if the exception is one of the three the [except] clause
    names, and the exception escapes otherwise.  When it returns a JSON
    object the function raises KeyError; a non-empty string, or a list
    whose first element is not an object, AttributeError.  For a list
    whose first element is an object the function returns that object's
    Description and [str] of its NIC5DigitId, each replaced by its default
    when the key is absent, whatever follows in the list.  For an empty
    list, an empty string, a number, a boolean or null it returns the
    sentinel pair.  [parse_activities] is this function on [loads]. *)
Theorem parse_activities_by_decoder (decode : str -> result json)
  (payload : str) :
  let data := decode (clean_quotes payload) in
  let outcome := parse_activities_with py_repr decode payload in
  (forall e, data = Raise e ->
             outcome = if handled e then Ok sentinel else Raise e)
  /\ (forall m, data = Ok (JDict m) -> outcome = Raise KeyError)
  /\ (forall c s, data = Ok (JStr (c :: s)) -> outcome = Raise AttributeError)
  /\ (forall v items,
        data = Ok (JList (v :: items)) -> (forall m, v <> JDict m) ->
        outcome = Raise AttributeError)
  /\ (forall m items,
        data = Ok (JList (JDict m :: items)) ->
        outcome
        = Ok (match dict_lookup m (lit "Description") with
              | Some v => v
              | None => JStr (lit "Unspecified Activity")
              end,
              py_str py_repr
                match dict_lookup m (lit "NIC5DigitId") with
                | Some v => v
                | None => JStr (lit "00000")
                end))
  /\ (data = Ok (JList []) \/ data = Ok (JStr []) \/ data = Ok JNull
      \/ (exists b, data = Ok (JBool b)) \/ (exists z, data = Ok (JInt z))
      \/ (exists lexeme, data = Ok (JFloat lexeme)) ->
      outcome = Ok sentinel)
  /\ parse_activities py_repr payload
     = parse_activities_with py_repr loads payload.
Proof.
  intros data outcome. subst data outcome.
  unfold parse_activities_with, parse_body_with.
  split; [|split; [|split; [|split; [|split; [|split]]]]].
  - intros e ->. reflexivity.
  - intros m ->. reflexivity.
  - intros c s ->. reflexivity.
  - intros v items -> Hv. destruct v; try reflexivity.
    exfalso. eapply Hv. reflexivity.
  - intros m items ->. reflexivity.
  - intros [->|[->|[->|[(b & ->)|[(z & ->)|(lexeme & ->)]]]]]; reflexivity.
  - reflexivity.
Qed.

Lemma mapping_keys_two_digits (k label : str) :
  mapping_get NIC_SECTION_MAPPING k = Some label -> is_digits 2 k = true.
Proof.
  unfold NIC_SECTION_MAPPING. cbn [mapping_get].
  repeat match goal with
         | |- context [str_eqb ?a k] =>
             destruct (str_eqb a k) eqn:E;
             [apply str_eqb_eq in E; subst k; intros _; reflexivity|clear E]
         end.
  discriminate.
Qed.

(** X14: a row whose NIC_Section is not a string of two digits (its code
    was shorter than two characters, or not numeric) is always labelled
    "Other/Unmapped Section", since every key of NIC_SECTION_MAPPING is a
    two-digit string. *)
Theorem odd_sections_are_unmapped (fs : filesystem) (path : str)
  (out : list element) (loaded : Loaded) (r : Row) :
  load_and_process_data py_repr fs path = (out, Done loaded) ->
  In r (df loaded) ->
  is_digits 2 (NIC_Section r) = false ->
  NIC_Section_Desc r = lit "Other/Unmapped Section"
  /\ NIC_Section_Code_Desc r
     = NIC_Section r ++ lit " - Other/Unmapped Section".
Proof.
  intros H Hr Hd.
  destruct (@load_In py_repr _ _ _ _ _ H Hr)
    as (rows & x & d & description & nic5 & _ & _ & _ & _ & Hb).
  unfold build_row in Hb. destruct description; try discriminate Hb.
  injection Hb as <-. simpl in *.
  assert (E : NIC_Section_Desc_of (NIC_Section_of nic5)
              = lit "Other/Unmapped Section").
  { unfold NIC_Section_Desc_of, map_fillna.
    destruct (mapping_get NIC_SECTION_MAPPING (NIC_Section_of nic5))
      as [label|] eqn:Em; [|reflexivity].
    apply mapping_keys_two_digits in Em. congruence. }
  rewrite E. split; reflexivity.
Qed.

End ScriptProperties.

(** ** Closed examples of the further properties *)

Lemma sample_with_undated_load :
  load_and_process_data any_repr (file_with sample_rows_with_undated) file_name
  = ([], Done sample_loaded).
Proof. vm_compute. reflexivity. Qed.

Lemma short_code_load :
  load_and_process_data any_repr (file_with short_code_rows) file_name
  = ([], Done (loaded_of (load_and_process_data any_repr
                            (file_with short_code_rows) file_name))).
Proof. vm_compute. reflexivity. Qed.

Lemma presentation_warns_when_empty_witness :
  presentation [] false
  = ([ st_markdown_rule;
       st_warning (lit "No data matches your current filter selections. Please adjust the filters above.") ],
     Done tt)
  /\ forall msg, ~ In (st_warning msg) (fst (presentation [bakery_row] true)).
Proof.
  split.
  - apply (proj1 (presentation_warns_when_empty [] false)). reflexivity.
  - apply (proj2 (presentation_warns_when_empty [bakery_row] true)).
    discriminate.
Defined.

Lemma district_chart_needs_all_districts_witness :
  [bakery_row] <> [] /\ lit "All Districts" = lit "All Districts".
Proof.
  apply (@district_chart_needs_all_districts [bakery_row] [bakery_row]
           (lit "All Districts")).
  vm_compute. do 15 right. left. reflexivity.
Defined.

Lemma table_rows_are_the_dated_rows_witness :
  List.length sample_rows_with_undated = 3
  /\ List.length (df sample_loaded) = 2
  /\ Forall2 carries sample_rows (df sample_loaded).
Proof.
  destruct (@table_rows_are_the_dated_rows any_repr
              (file_with sample_rows_with_undated) file_name
              sample_rows_with_undated [] sample_loaded eq_refl
              sample_with_undated_load) as [Hc Hl].
  split; [reflexivity|]. split; [reflexivity|]. exact Hc.
Defined.

Lemma every_payload_is_parsed_witness :
  exists p,
    parse_activities any_repr
      (qlit "'[{''Description'':''Tailoring'',''NIC5DigitId'':''14101''}]'")
    = Ok p.
Proof.
  apply (proj1 (@every_payload_is_parsed any_repr
                  (file_with sample_rows_with_undated) file_name
                  sample_rows_with_undated eq_refl)
           [] sample_loaded
           (csv_row None
              (CStr (qlit "'[{''Description'':''Tailoring'',''NIC5DigitId'':''14101''}]'"))
              "Goa" "Panaji" "403001" "Mandovi Tailors")
           sample_with_undated_load).
  right. right. left. reflexivity.
Defined.

Lemma option_lists_sorted_distinct_witness :
  StronglySorted str_le (pincode_options sample_loaded)
  /\ NoDup (pincode_options sample_loaded).
Proof.
  apply (proj1 (option_lists_sorted_distinct any_repr)
           (file_with sample_rows) file_name [] sample_loaded sample_load).
Defined.


Lemma clean_quotes_without_quotes_witness :
  clean_quotes (lit "nan") = lit "nan".
Proof.
  apply clean_quotes_without_quotes.
  vm_compute. intros [H|[H|[H|[]]]]; discriminate H.
Defined.

Lemma parse_activities_by_decoder_witness :
  parse_activities_with any_repr (fun _ => Raise ValueError) (lit "1")
  = Raise ValueError.
Proof.
  apply (proj1 (parse_activities_by_decoder any_repr
                  (fun _ => Raise ValueError) (lit "1"))
           ValueError).
  reflexivity.
Defined.

Lemma odd_sections_are_unmapped_witness :
  NIC_Section_Desc
    (hd bakery_row
       (df (loaded_of (load_and_process_data any_repr
                         (file_with short_code_rows) file_name))))
  = lit "Other/Unmapped Section".
Proof.
  apply (@odd_sections_are_unmapped any_repr (file_with short_code_rows)
           file_name [] _ _ short_code_load).
  - vm_compute. left. reflexivity.
  - vm_compute. reflexivity.
Defined.
